(** * Book library: session lifecycle, date handling and store integrity

    A shallow embedding of the core of the book-tracking application:
    - [utils/date_utils.py]    (module [DateUtils]),
    - [models/*.py]            (modules [Book], [ReadingSession], [Note]),
    - [database/manager.py]    (module [Manager]),
    - the add-book form of [ui/screens/add_book.py] and its caller in
      [ui/app.py]              (module [AddBookScreen]),
    - the session dialog of [ui/screens/reading_session.py] and the
      callbacks of [ui/screens/book_detail.py]
                               (modules [ReadingSessionScreen],
                                [BookDetailScreen]).

    The SQLite tables are lists of rows in rowid order.  Values that the
    program receives from its environment are explicit arguments: the
    external date parser ([dateutil.parser.parse]), the clock
    ([date.today()], SQL [now()]). *)

From Stdlib Require Import ZArith List String Ascii Bool Lia.
From Stdlib Require Import Sorted Permutation.
Import ListNotations.

Local Open Scope string_scope.
Local Open Scope list_scope.
Local Open Scope Z_scope.

(* ===================================================================== *)
(** * Python values: exceptions, truthiness, [str.strip] *)
(* ===================================================================== *)

Module Py.

(** The exception classes that occur in the modelled code. *)
Inductive exn : Type :=
| ParserError                      (* dateutil.parser.ParserError *)
| ValueError (msg : string)
| TypeError
| OverflowError
| IntegrityError (msg : string).   (* sqlalchemy.exc.IntegrityError *)

(** A call either returns a value or raises. *)
Inductive result (A : Type) : Type :=
| Ok (a : A)
| Raise (e : exn).
Arguments Ok {A} a.
Arguments Raise {A} e.

Definition bind {A B} (r : result A) (k : A -> result B) : result B :=
  match r with
  | Ok a => k a
  | Raise e => Raise e
  end.

(** Truth value of a [str]: the empty string is false. *)
Definition truthy (s : string) : bool :=
  match s with
  | EmptyString => false
  | String _ _ => true
  end.

(** Truth value of an optional [str] argument ([None] is false). *)
Definition truthy_opt (s : option string) : bool :=
  match s with
  | Some x => truthy x
  | None => false
  end.

(** [str.isspace] on one character.  Strings are sequences of code
    points below 256; the white-space ones are TAB..CR, FS..US, SPACE,
    NEL and NBSP. *)
Definition isspace (c : ascii) : bool :=
  let n := Z.of_nat (nat_of_ascii c) in
  ((9 <=? n) && (n <=? 13)) || ((28 <=? n) && (n <=? 32))
  || (n =? 133) || (n =? 160).

Fixpoint lstrip (s : string) : string :=
  match s with
  | EmptyString => EmptyString
  | String c s' => if isspace c then lstrip s' else s
  end.

Fixpoint rstrip (s : string) : string :=
  match s with
  | EmptyString => EmptyString
  | String c s' =>
      match rstrip s' with
      | EmptyString => if isspace c then EmptyString else String c EmptyString
      | r => String c r
      end
  end.

(** [s.strip()] *)
Definition strip (s : string) : string := rstrip (lstrip s).

(** Every character of [s] is white space (true for the empty string). *)
Fixpoint all_space (s : string) : bool :=
  match s with
  | EmptyString => true
  | String c s' => isspace c && all_space s'
  end.

(** [x or None] on a string: the empty string becomes [None]. *)
Definition or_None (s : string) : option string :=
  if truthy s then Some s else None.

End Py.

Import Py.

(* ===================================================================== *)
(** * [datetime.date]: proleptic Gregorian calendar and [strftime] *)
(* ===================================================================== *)

Module Datetime.

Record date : Type := Date { year : Z; month : Z; day : Z }.

(** What the external parser returns: a date and a time of day. *)
Record datetime : Type := DateTime {
  dt_date : date;
  hour : Z; minute : Z; second : Z; microsecond : Z
}.

Definition is_leap (y : Z) : bool :=
  (y mod 4 =? 0) && (negb (y mod 100 =? 0) || (y mod 400 =? 0)).

Definition days_in_month (y m : Z) : Z :=
  if m =? 2 then (if is_leap y then 29 else 28)
  else if (m =? 4) || (m =? 6) || (m =? 9) || (m =? 11) then 30
  else 31.

(** The values a [date] object can hold. *)
Definition valid_date (d : date) : Prop :=
  1 <= year d <= 9999 /\ 1 <= month d <= 12 /\
  1 <= day d <= days_in_month (year d) (month d).

Definition valid_dateb (d : date) : bool :=
  (1 <=? year d) && (year d <=? 9999) && (1 <=? month d) && (month d <=? 12)
  && (1 <=? day d) && (day d <=? days_in_month (year d) (month d)).

Definition date_eqb (a b : date) : bool :=
  (year a =? year b) && (month a =? month b) && (day a =? day b).

(** [a <= b] on dates (chronological order). *)
Definition date_leb (a b : date) : bool :=
  (year a <? year b)
  || ((year a =? year b)
      && ((month a <? month b)
          || ((month a =? month b) && (day a <=? day b)))).

(** ** Ordinals and weekdays, as [datetime] computes them *)

(** Number of days before January 1st of [y]. *)
Definition days_before_year (y : Z) : Z :=
  let y1 := y - 1 in
  y1 * 365 + y1 / 4 - y1 / 100 + y1 / 400.

Definition _DAYS_BEFORE_MONTH : list Z :=
  [0; 0; 31; 59; 90; 120; 151; 181; 212; 243; 273; 304; 334].

(** Number of days in year [y] before the first day of month [m]. *)
Definition days_before_month (y m : Z) : Z :=
  nth (Z.to_nat m) _DAYS_BEFORE_MONTH 0
  + (if (2 <? m) && is_leap y then 1 else 0).

(** [date.toordinal()]: 0001-01-01 is day 1. *)
Definition toordinal (d : date) : Z :=
  days_before_year (year d) + days_before_month (year d) (month d) + day d.

(** [date.weekday()]: Monday is 0, Sunday is 6. *)
Definition weekday (d : date) : Z := (toordinal d + 6) mod 7.

(** ** [date.strftime] in the C locale *)

Definition digit (n : Z) : ascii :=
  ascii_of_nat (48 + Z.to_nat (n mod 10)).

(** Decimal rendering of [n], zero-filled to [width] digits. *)
Fixpoint zero_padded (width : nat) (n : Z) : string :=
  match width with
  | O => EmptyString
  | S w => (zero_padded w (n / 10) ++ String (digit n) EmptyString)%string
  end.

(** The year of a date as [%Y] prints it: in decimal, without leading
    zeros (the C library does not pad it), so four digits from the year
    1000 on and fewer before. *)
Definition unpadded_year (y : Z) : string :=
  if y <? 10 then zero_padded 1 y
  else if y <? 100 then zero_padded 2 y
  else if y <? 1000 then zero_padded 3 y
  else zero_padded 4 y.

(** Abbreviated day names of the C locale, indexed by [tm_wday]
    (Sunday is 0). *)
Definition abday : list string :=
  ["Sun"; "Mon"; "Tue"; "Wed"; "Thu"; "Fri"; "Sat"].

Definition directive (c : ascii) (d : date) : string :=
  match c with
  | "Y"%char => unpadded_year (year d)
  | "m"%char => zero_padded 2 (month d)
  | "d"%char => zero_padded 2 (day d)
  | "a"%char => nth (Z.to_nat ((weekday d + 1) mod 7)) abday ""
  | "%"%char => "%"
  | _ => String "%"%char (String c EmptyString)
  end.

(** [d.strftime(fmt)] for the directives [%Y %m %d %a %%]; every other
    character is copied. *)
Fixpoint strftime (fmt : string) (d : date) : string :=
  match fmt with
  | EmptyString => EmptyString
  | String c rest =>
      match c, rest with
      | "%"%char, String c' rest' =>
          (directive c' d ++ strftime rest' d)%string
      | _, _ => String c (strftime rest d)
      end
  end.

End Datetime.

Import Datetime.

(* ===================================================================== *)
(** * The calendar as the specification describes it *)
(* ===================================================================== *)

(** The weekday of a date is found by counting days: each day is the
    weekday after the one of the day before, and 25 December 2023 is a
    Monday. *)
Module CalendarSpec.











Definition is_digit (c : ascii) : bool :=
  let n := nat_of_ascii c in (48 <=? n)%nat && (n <=? 57)%nat.

(** Value of a string of decimal digits, most significant first. *)
Fixpoint read_decimal (acc : Z) (s : string) : Z :=
  match s with
  | EmptyString => acc
  | String c s' => read_decimal (10 * acc + (Z.of_nat (nat_of_ascii c) - 48)) s'
  end.

Fixpoint all_digits (s : string) : bool :=
  match s with
  | EmptyString => true
  | String c s' => is_digit c && all_digits s'
  end.

(** [s] is the [width]-digit decimal numeral of [n]. *)
Definition numeral (width : nat) (s : string) (n : Z) : Prop :=
  String.length s = width /\ all_digits s = true /\ read_decimal 0 s = n.

End CalendarSpec.

(* ===================================================================== *)
(** * utils/date_utils.py *)
(* ===================================================================== *)

Module DateUtils.

Section WithParser.

(** [dateutil.parser.parse]: returns a [datetime] or raises. *)
Variable parse_date : string -> result datetime.

(** [except (ParserError, ValueError, TypeError)]; [ParserError] is a
    subclass of [ValueError]. *)
Definition caught (e : exn) : bool :=
  match e with
  | ParserError | ValueError _ | TypeError => true
  | OverflowError | IntegrityError _ => false
  end.

Definition parse_date_input (date_string : string)
  : result (option date) :=
  if negb (truthy date_string) || negb (truthy (strip date_string))
  then Ok None
  else
    match parse_date (strip date_string) with
    | Ok parsed_datetime => Ok (Some (dt_date parsed_datetime))
    | Raise e => if caught e then Ok None else Raise e
    end.

Definition validate_date_input (date_string : string) : result bool :=
  match parse_date_input date_string with
  | Ok (Some _) => Ok true
  | Ok None => Ok false
  | Raise e => Raise e
  end.

End WithParser.

Definition format_date_for_display (date_obj : option date) : string :=
  match date_obj with
  | None => ""
  | Some d => strftime "%Y-%m-%d (%a)" d
  end.

End DateUtils.

(* ===================================================================== *)
(** * models/enums.py *)
(* ===================================================================== *)

Inductive BookType : Type := PHYSICAL | EBOOK | AUDIOBOOK.

Inductive ReadingStatus : Type := TO_READ | READING | COMPLETED | ABANDONED.

Inductive NoteType : Type := REVIEW | HIGHLIGHT | THOUGHT | QUOTE.

Definition ReadingStatus_eqb (a b : ReadingStatus) : bool :=
  match a, b with
  | TO_READ, TO_READ | READING, READING
  | COMPLETED, COMPLETED | ABANDONED, ABANDONED => true
  | _, _ => false
  end.

(* ===================================================================== *)
(** * models/book.py, models/reading_session.py, models/note.py *)
(* ===================================================================== *)

(** One record per mapped class; a field per column.  Timestamps are
    seconds on the database clock. *)

Module Book.
Record t : Type := Make {
  id : Z;
  title : string;
  author : string;
  isbn : option string;
  publisher : option string;
  publication_year : option Z;
  pages : option Z;
  book_type : BookType;
  status : ReadingStatus;
  added_date : Z;
  last_modified : Z
}.

(** Assigning [book.status = st] and flushing.  The unit of work emits
    an UPDATE only when the value changed, and every UPDATE of the row
    refreshes [last_modified] ([onupdate=func.now()]). *)
Definition set_status (now : Z) (st : ReadingStatus) (b : t) : t :=
  if ReadingStatus_eqb (status b) st then b
  else Make (id b) (title b) (author b) (isbn b) (publisher b)
            (publication_year b) (pages b) (book_type b)
            st (added_date b) now.
End Book.

Module ReadingSession.
Record t : Type := Make {
  id : Z;
  book_id : Z;
  start_date : date;
  end_date : option date;        (* None while the session is open *)
  session_notes : option string;
  created_date : Z
}.

Definition set_end_date (d : date) (s : t) : t :=
  Make (id s) (book_id s) (start_date s) (Some d) (session_notes s)
       (created_date s).

Definition set_session_notes (n : option string) (s : t) : t :=
  Make (id s) (book_id s) (start_date s) (end_date s) n (created_date s).
End ReadingSession.

Module Note.
Record t : Type := Make {
  id : Z;
  book_id : Z;
  note_type : NoteType;
  title : option string;
  content : string;
  page_number : option Z;
  created_date : Z;
  last_modified : Z
}.
End Note.

(* ===================================================================== *)
(** * The record store: tables with an integer primary key *)
(* ===================================================================== *)

Module Table.
Section Rows.
Context {A : Type}.
Variable pk : A -> Z.

(** The rowid SQLite gives to an inserted row: one more than the
    largest one in the table. *)
Definition next_id (t : list A) : Z :=
  1 + fold_right Z.max 0 (map pk t).

(** [query.filter(p).first()] *)
Definition first (p : A -> bool) (t : list A) : option A := find p t.

(** Flushing a modified object: UPDATE ... WHERE id = pk. *)
Definition update (r : A) (t : list A) : list A :=
  map (fun x => if pk x =? pk r then r else x) t.

(** DELETE ... WHERE id = k. *)
Definition delete (k : Z) (t : list A) : list A :=
  filter (fun x => negb (pk x =? k)) t.

(** The PRIMARY KEY constraint. *)
Definition unique (t : list A) : Prop := NoDup (map pk t).

(** [ORDER BY ... DESC], with [leb a b] the order of the sort key. *)
Fixpoint insert_desc (leb : A -> A -> bool) (x : A) (l : list A)
  : list A :=
  match l with
  | [] => [x]
  | y :: l' => if leb y x then x :: l else y :: insert_desc leb x l'
  end.

Definition order_by_desc (leb : A -> A -> bool) (l : list A) : list A :=
  fold_right (insert_desc leb) [] l.

(** [ORDER BY ...] (ascending). *)
Fixpoint insert_asc (leb : A -> A -> bool) (x : A) (l : list A)
  : list A :=
  match l with
  | [] => [x]
  | y :: l' => if leb x y then x :: l else y :: insert_asc leb x l'
  end.

Definition order_by (leb : A -> A -> bool) (l : list A) : list A :=
  fold_right (insert_asc leb) [] l.
End Rows.
End Table.

Record Store : Type := MkStore {
  books : list Book.t;
  reading_sessions : list ReadingSession.t;
  notes : list Note.t
}.

(** The database right after [Base.metadata.create_all] on a new file. *)
Definition empty_store : Store := MkStore [] [] [].

(* ===================================================================== *)
(** * database/manager.py: DatabaseManager *)
(* ===================================================================== *)

Module Manager.

(** The integers SQLite stores and its driver binds are signed 64-bit
    values.  With any other integer as a parameter the driver raises
    [OverflowError] when the statement is executed and the database is
    left as it was; the methods below are modelled for parameters in
    this range. *)
Definition sqlite_int (n : Z) : bool :=
  (- 2 ^ 63 <=? n) && (n <? 2 ^ 63).

Definition sqlite_int_opt (n : option Z) : bool :=
  match n with
  | Some k => sqlite_int k
  | None => true
  end.

Definition opt_string_eqb (a b : option string) : bool :=
  match a, b with
  | Some x, Some y => String.eqb x y
  | _, _ => false
  end.

(** [isbn = Column(String(20), nullable=True, unique=True)]: an INSERT
    fails when another row holds the same non-null ISBN. *)
Definition isbn_taken (isbn : option string) (t : list Book.t) : bool :=
  existsb (fun b => opt_string_eqb (Book.isbn b) isbn) t.

(** [ReadingSession.book_id == book_id, ReadingSession.end_date.is_(None)] *)
Definition is_open_for (book_id : Z) (s : ReadingSession.t) : bool :=
  (ReadingSession.book_id s =? book_id)
  && match ReadingSession.end_date s with None => true | Some _ => false end.

Definition has_id (book_id : Z) (b : Book.t) : bool :=
  Book.id b =? book_id.

(** [book = query(Book).filter(Book.id == book_id).first();
     if book: book.status = status] *)
Definition assign_status (now book_id : Z) (st : ReadingStatus)
           (t : list Book.t) : list Book.t :=
  match Table.first (has_id book_id) t with
  | Some book => Table.update Book.id (Book.set_status now st book) t
  | None => t
  end.

Section WithParser.

Variable parse_date : string -> result datetime.

(** Each method opens a database session, works on it and commits; an
    exception leaves the database as it was.  A method maps the store
    to its outcome and the store afterwards. *)

Definition add_book (now : Z) (title author : string)
           (book_type : BookType) (isbn publisher : option string)
           (publication_year pages : option Z) (db : Store)
  : result Book.t * Store :=
  let book :=
    Book.Make (Table.next_id Book.id (books db)) title author isbn
              publisher publication_year pages book_type TO_READ
              now now in
  if isbn_taken isbn (books db)
  then (Raise (IntegrityError "UNIQUE constraint failed: books.isbn"), db)
  else (Ok book,
        MkStore (books db ++ [book]) (reading_sessions db) (notes db)).

(** [query(Book).order_by(Book.title).all()]; text is compared code
    point by code point (SQLite's BINARY collation). *)
Definition get_all_books (db : Store) : list Book.t :=
  Table.order_by (fun a b => String.leb (Book.title a) (Book.title b))
                 (books db).

Definition get_book_by_id (book_id : Z) (db : Store) : option Book.t :=
  Table.first (has_id book_id) (books db).

(** [query(Book.author).distinct().order_by(Book.author).all()] *)
Definition get_unique_authors (db : Store) : list string :=
  Table.order_by String.leb
    (nodup string_dec (map Book.author (books db))).

Definition get_books_by_author (author : string) (db : Store)
  : list Book.t :=
  filter (fun b => String.eqb (Book.author b) author) (books db).

Definition update_book_status (now book_id : Z) (status : ReadingStatus)
           (db : Store) : result unit * Store :=
  (Ok tt,
   MkStore (assign_status now book_id status (books db))
           (reading_sessions db) (notes db)).

(** [session.delete(book)] with [cascade="all, delete-orphan"] on both
    relationships: the rows that reference the book go with it. *)
Definition delete_book (book_id : Z) (db : Store) : result bool * Store :=
  match Table.first (has_id book_id) (books db) with
  | Some book =>
      (Ok true,
       MkStore
         (Table.delete Book.id (Book.id book) (books db))
         (filter (fun s => negb (ReadingSession.book_id s =? Book.id book))
                 (reading_sessions db))
         (filter (fun n => negb (Note.book_id n =? Book.id book))
                 (notes db)))
  | None => (Ok false, db)
  end.

(** Lines 110-115 and 152-157: parse the date string or use today. *)
Definition date_or_today (today : date) (date_str : option string)
  : result date :=
  match date_str with
  | Some s =>
      if truthy s then
        match DateUtils.parse_date_input parse_date s with
        | Ok (Some d) => Ok d
        | Ok None =>
            Raise (ValueError ("Could not parse date: " ++ s)%string)
        | Raise e => Raise e
        end
      else Ok today
  | None => Ok today
  end.

Definition start_reading_session (today : date) (now book_id : Z)
           (start_date_str : option string) (db : Store)
  : result ReadingSession.t * Store :=
  match date_or_today today start_date_str with
  | Raise e => (Raise e, db)
  | Ok start_date =>
      (* End any current reading session for this book *)
      let sessions :=
        match Table.first (is_open_for book_id) (reading_sessions db) with
        | Some current_session =>
            Table.update ReadingSession.id
              (ReadingSession.set_end_date start_date current_session)
              (reading_sessions db)
        | None => reading_sessions db
        end in
      (* Create new session *)
      let new_session :=
        ReadingSession.Make
          (Table.next_id ReadingSession.id (reading_sessions db))
          book_id start_date None None now in
      (* Update book status *)
      (Ok new_session,
       MkStore (assign_status now book_id READING (books db))
               (sessions ++ [new_session]) (notes db))
  end.

Definition end_reading_session (today : date) (now book_id : Z)
           (end_date_str session_notes : option string)
           (completed : bool) (db : Store) : result unit * Store :=
  match date_or_today today end_date_str with
  | Raise e => (Raise e, db)
  | Ok end_date =>
      match Table.first (is_open_for book_id) (reading_sessions db) with
      | Some current_session =>
          let ended := ReadingSession.set_end_date end_date current_session in
          let ended :=
            if truthy_opt session_notes
            then ReadingSession.set_session_notes session_notes ended
            else ended in
          (Ok tt,
           MkStore
             (if completed
              then assign_status now book_id COMPLETED (books db)
              else books db)
             (Table.update ReadingSession.id ended (reading_sessions db))
             (notes db))
      | None => (Ok tt, db)
      end
  end.

Definition get_reading_sessions (book_id : Z) (db : Store)
  : list ReadingSession.t :=
  Table.order_by_desc
    (fun a b => date_leb (ReadingSession.start_date a)
                         (ReadingSession.start_date b))
    (filter (fun s => ReadingSession.book_id s =? book_id)
            (reading_sessions db)).

Definition add_note (now book_id : Z) (note_type : NoteType)
           (content : string) (title : option string)
           (page_number : option Z) (db : Store) : result Note.t * Store :=
  let note :=
    Note.Make (Table.next_id Note.id (notes db)) book_id note_type title
              content page_number now now in
  (Ok note, MkStore (books db) (reading_sessions db) (notes db ++ [note])).

Definition get_notes_for_book (book_id : Z) (db : Store) : list Note.t :=
  Table.order_by_desc
    (fun a b => Note.created_date a <=? Note.created_date b)
    (filter (fun n => Note.book_id n =? book_id) (notes db)).

Definition delete_note (note_id : Z) (db : Store) : result bool * Store :=
  match Table.first (fun n => Note.id n =? note_id) (notes db) with
  | Some note =>
      (Ok true,
       MkStore (books db) (reading_sessions db)
               (Table.delete Note.id (Note.id note) (notes db)))
  | None => (Ok false, db)
  end.

(** ** Sequences of operations *)

Inductive operation : Type :=
| AddBook (now : Z) (title author : string) (book_type : BookType)
          (isbn publisher : option string)
          (publication_year pages : option Z)
| StartSession (today : date) (now book_id : Z)
               (start_date_str : option string)
| EndSession (today : date) (now book_id : Z)
             (end_date_str session_notes : option string)
             (completed : bool)
| UpdateBookStatus (now book_id : Z) (status : ReadingStatus)
| AddNote (now book_id : Z) (note_type : NoteType) (content : string)
          (title : option string) (page_number : option Z)
| DeleteNote (note_id : Z)
| DeleteBook (book_id : Z).

(** The store after one operation, whatever its outcome. *)
Definition apply (op : operation) (db : Store) : Store :=
  match op with
  | AddBook now title author book_type isbn publisher year pages =>
      snd (add_book now title author book_type isbn publisher year pages db)
  | StartSession today now book_id s =>
      snd (start_reading_session today now book_id s db)
  | EndSession today now book_id s session_notes completed =>
      snd (end_reading_session today now book_id s session_notes
                               completed db)
  | UpdateBookStatus now book_id status =>
      snd (update_book_status now book_id status db)
  | AddNote now book_id note_type content title page_number =>
      snd (add_note now book_id note_type content title page_number db)
  | DeleteNote note_id => snd (delete_note note_id db)
  | DeleteBook book_id => snd (delete_book book_id db)
  end.

Definition run (ops : list operation) (db : Store) : Store :=
  fold_left (fun s op => apply op s) ops db.

End WithParser.

(** The sessions of a book that have no end date. *)
Definition open_sessions (book_id : Z) (db : Store)
  : list ReadingSession.t :=
  filter (is_open_for book_id) (reading_sessions db).

(** The PRIMARY KEY constraint of the three tables. *)
Definition well_keyed (db : Store) : Prop :=
  Table.unique Book.id (books db)
  /\ Table.unique ReadingSession.id (reading_sessions db)
  /\ Table.unique Note.id (notes db).

(** The books that carry a given ISBN. *)
Definition with_isbn (i : string) (t : list Book.t) : list Book.t :=
  filter (fun b => opt_string_eqb (Book.isbn b) (Some i)) t.

(** All the sessions of a book. *)
Definition sessions_of (book_id : Z) (db : Store) : list ReadingSession.t :=
  filter (fun s => ReadingSession.book_id s =? book_id)
         (reading_sessions db).

Definition notes_of (book_id : Z) (db : Store) : list Note.t :=
  filter (fun n => Note.book_id n =? book_id) (notes db).

End Manager.

(* ===================================================================== *)
(** * ui/screens/add_book.py and the add-book action of ui/app.py *)
(* ===================================================================== *)

Module AddBookScreen.

(** The values of the form's widgets when it is submitted. *)
Record Form : Type := MkForm {
  title_input : string;
  author_input : string;
  type_select : BookType;
  isbn_input : string;
  publisher_input : string;
  year_input : string;
  pages_input : string;
  genre_input : string;
  description_input : string
}.

(** The [book_data] dictionary handed to [dismiss]. *)
Record BookData : Type := MkBookData {
  title : string;
  author : string;
  book_type : BookType;
  isbn : option string;
  publisher : option string;
  publication_year : option Z;
  pages : option Z;
  genre : option string;
  description : option string
}.

Inductive outcome : Type :=
| ShowError (message focus : string)   (* the dialog stays open *)
| Dismiss (book_data : BookData).

Section WithInt.

(** The built-in [int] on a string; [None] when it raises
    [ValueError]. *)
Variable int : string -> option Z.

Definition numeric_field (text : string) : option (option Z) :=
  if truthy text then
    match int text with
    | Some n => Some (Some n)
    | None => None
    end
  else Some None.

Definition _submit_form (f : Form) : outcome :=
  let title := strip (title_input f) in
  let author := strip (author_input f) in
  if negb (truthy title) then
    ShowError "Title is required" "#title-input"
  else if negb (truthy author) then
    ShowError "Author is required" "#author-input"
  else
    let book_type := type_select f in
    let isbn := or_None (strip (isbn_input f)) in
    let publisher := or_None (strip (publisher_input f)) in
    match numeric_field (strip (year_input f)) with
    | None => ShowError "Publication year must be a number" "#year-input"
    | Some year =>
        match numeric_field (strip (pages_input f)) with
        | None => ShowError "Pages must be a number" "#pages-input"
        | Some pages =>
            Dismiss
              (MkBookData title author book_type isbn publisher year
                 pages
                 (or_None (strip (genre_input f)))
                 (or_None (strip (description_input f))))
        end
    end.

(** [LibraryApp.action_add_book.handle_add_book_result]: keeps the
    database fields of [book_data] and calls [add_book]; an exception
    only rings the bell. *)
Definition handle_add_book_result (now : Z) (book_data : option BookData)
           (db : Store) : Store :=
  match book_data with
  | Some d =>
      snd (Manager.add_book now (title d) (author d) (book_type d)
             (isbn d) (publisher d) (publication_year d) (pages d) db)
  | None => db
  end.

(** Pressing "Add Book" (or ctrl+enter) on the form and, when the form
    is dismissed with data, running the callback. *)
Definition submit (now : Z) (f : Form) (db : Store) : Store :=
  match _submit_form f with
  | ShowError _ _ => db
  | Dismiss d => handle_add_book_result now (Some d) db
  end.

End WithInt.

End AddBookScreen.

(* ===================================================================== *)
(** * ui/screens/reading_session.py and the actions of
      ui/screens/book_detail.py *)
(* ===================================================================== *)

Module ReadingSessionScreen.

(** [self.action]: "start" or "end". *)
Inductive action : Type := ActionStart | ActionEnd.

Record Form : Type := MkForm {
  date_input : string;
  notes_input : string;
  completed_checkbox : bool
}.

(** The [session_data] dictionary; the key [completed] is present only
    in the "end" dialog. *)
Record SessionData : Type := MkSessionData {
  date_str : string;
  notes : option string;
  data_action : action;
  completed : option bool
}.

Section WithParser.

Variable parse_date : string -> result datetime.

(** [on_button_pressed] on the action button: [Some session_data] when
    the dialog is dismissed with data, [None] when the handler returns
    and the dialog stays open. *)
Definition on_button_pressed (act : action) (f : Form)
  : result (option SessionData) :=
  let date_str := strip (date_input f) in
  let notes := or_None (strip (notes_input f)) in
  if negb (truthy date_str) then Ok None
  else
    match DateUtils.validate_date_input parse_date date_str with
    | Raise e => Raise e
    | Ok false => Ok None
    | Ok true =>
        Ok (Some (MkSessionData date_str notes act
                    (match act with
                     | ActionEnd => Some (completed_checkbox f)
                     | ActionStart => None
                     end)))
    end.

End WithParser.

End ReadingSessionScreen.

Module BookDetailScreen.

Section WithParser.

Variable parse_date : string -> result datetime.

(** [action_start_reading.handle_session_result]: an exception of the
    manager only rings the bell. *)
Definition handle_start_result (today : date) (now book_id : Z)
           (session_data : option ReadingSessionScreen.SessionData)
           (db : Store) : Store :=
  match session_data with
  | Some d =>
      snd (Manager.start_reading_session parse_date today now book_id
             (Some (ReadingSessionScreen.date_str d)) db)
  | None => db
  end.

(** [action_end_reading.handle_session_result];
    [session_data.get('completed', False)]. *)
Definition handle_end_result (today : date) (now book_id : Z)
           (session_data : option ReadingSessionScreen.SessionData)
           (db : Store) : Store :=
  match session_data with
  | Some d =>
      snd (Manager.end_reading_session parse_date today now book_id
             (Some (ReadingSessionScreen.date_str d))
             (ReadingSessionScreen.notes d)
             (match ReadingSessionScreen.completed d with
              | Some c => c
              | None => false
              end) db)
  | None => db
  end.

End WithParser.

(** [action_delete_book.handle_confirmation] *)
Definition handle_confirmation (book_id : Z) (confirmed : bool)
           (db : Store) : Store :=
  if confirmed then snd (Manager.delete_book book_id db) else db.

End BookDetailScreen.

(* ===================================================================== *)
(** * Sample environment for the worked examples *)
(* ===================================================================== *)

Module Sample.

(** The outcome of [dateutil.parser.parse] on the inputs used in the
    examples: an ISO date is read as that date at midnight; a year that
    does not fit a C [int] makes [datetime.replace] raise
    [OverflowError], which the parser lets through; the other inputs of
    the examples are not dates. *)
Definition parse_date (s : string) : result datetime :=
  if String.eqb s "2023-12-25" then Ok (DateTime (Date 2023 12 25) 0 0 0 0)
  else if String.eqb s "2024-01-10" then Ok (DateTime (Date 2024 1 10) 0 0 0 0)
  else if String.eqb s "99999999999-01-01" then Raise OverflowError
  else Raise ParserError.

(** [int] on the numerals used in the examples. *)
Definition int (s : string) : option Z :=
  if String.eqb s "1965" then Some 1965
  else if String.eqb s "412" then Some 412
  else None.

Definition today : date := Date 2024 1 15.

Definition dune : Book.t :=
  Book.Make 1 "Dune" "Frank Herbert" (Some "9780441172719") None
            (Some 1965) (Some 412) PHYSICAL READING 100 100.

Definition emma : Book.t :=
  Book.Make 2 "Emma" "Jane Austen" None None None None EBOOK TO_READ
            150 150.

Definition dune_first : ReadingSession.t :=
  ReadingSession.Make 1 1 (Date 2023 11 1) (Some (Date 2023 11 20)) None 110.

Definition dune_open : ReadingSession.t :=
  ReadingSession.Make 2 1 (Date 2023 12 25) None None 120.

Definition dune_note : Note.t :=
  Note.Make 1 1 THOUGHT (Some "Spice") "The spice must flow" None 130 130.

(** A library with a book being read and a book not started. *)
Definition library : Store :=
  MkStore [dune; emma] [dune_first; dune_open] [dune_note].

Definition dune_done : Book.t :=
  Book.Make 1 "Dune" "Frank Herbert" (Some "9780441172719") None
            (Some 1965) (Some 412) PHYSICAL COMPLETED 100 180.

(** The same library after the first book was marked completed by hand
    while its session was still open. *)
Definition library_marked : Store :=
  MkStore [dune_done; emma] [dune_first; dune_open] [dune_note].

End Sample.

(* ===================================================================== *)
(** * Properties of the date utilities *)
(* ===================================================================== *)

Section StripFacts.

Lemma lstrip_all_space (s : string) :
  all_space s = true -> lstrip s = EmptyString.
Proof.
  induction s as [| c s IH]; simpl; intros H.
  - reflexivity.
  - apply andb_true_iff in H as [Hc Hs]. rewrite Hc. auto.
Qed.

Lemma strip_all_space (s : string) :
  all_space s = true -> strip s = EmptyString.
Proof.
  intros H. unfold strip. rewrite (lstrip_all_space s H). reflexivity.
Qed.

Lemma rstrip_empty_all_space (s : string) :
  rstrip s = EmptyString -> all_space s = true.
Proof.
  induction s as [| c s IH]; simpl; intros H.
  - reflexivity.
  - destruct (rstrip s) eqn:E.
    + destruct (isspace c); [simpl; auto | discriminate].
    + discriminate.
Qed.

Lemma lstrip_all_space_inv (s : string) :
  all_space (lstrip s) = true -> all_space s = true.
Proof.
  induction s as [| c s IH]; simpl; intros H.
  - reflexivity.
  - destruct (isspace c) eqn:E; simpl in *.
    + auto.
    + rewrite E in H. discriminate.
Qed.

(** [strip] returns the empty string exactly on the strings made of
    white space only. *)
Lemma strip_empty_iff (s : string) :
  strip s = EmptyString <-> all_space s = true.
Proof.
  split.
  - intros H. apply lstrip_all_space_inv, rstrip_empty_all_space, H.
  - apply strip_all_space.
Qed.

End StripFacts.

Section ParseDateInput.

Variable parse_date : string -> result datetime.

(** Empty and white-space-only text gives [None], whatever the parser. *)
Lemma parse_date_input_blank (s : string) :
  all_space s = true -> DateUtils.parse_date_input parse_date s = Ok None.
Proof.
  intros H. unfold DateUtils.parse_date_input.
  rewrite (strip_all_space s H). simpl.
  rewrite orb_true_r. reflexivity.
Qed.

Lemma parse_date_input_empty :
  DateUtils.parse_date_input parse_date "" = Ok None.
Proof. reflexivity. Qed.

Lemma not_blank_truthy (s : string) :
  all_space s = false ->
  truthy s = true /\ truthy (strip s) = true.
Proof.
  intros H. split.
  - destruct s; [discriminate | reflexivity].
  - destruct (strip s) eqn:E; [| reflexivity].
    apply strip_empty_iff in E. congruence.
Qed.

(** On any other text the parser is called on the stripped text. *)
Lemma parse_date_input_calls_parser (s : string) :
  all_space s = false ->
  DateUtils.parse_date_input parse_date s =
  match parse_date (strip s) with
  | Ok dt => Ok (Some (dt_date dt))
  | Raise e => if DateUtils.caught e then Ok None else Raise e
  end.
Proof.
  intros H. destruct (not_blank_truthy s H) as [H1 H2].
  unfold DateUtils.parse_date_input. rewrite H1, H2. reflexivity.
Qed.

(** Text the parser rejects with [ParserError] (or another
    [ValueError], or [TypeError]) gives [None]. *)
Lemma parse_date_input_unparseable (s : string) (e : exn) :
  parse_date (strip s) = Raise e -> DateUtils.caught e = true ->
  DateUtils.parse_date_input parse_date s = Ok None.
Proof.
  intros Hp He. destruct (all_space s) eqn:Hs.
  - apply parse_date_input_blank, Hs.
  - rewrite (parse_date_input_calls_parser s Hs), Hp, He. reflexivity.
Qed.

(** A successful parse keeps the calendar date only. *)
Lemma parse_date_input_parsed (s : string) (dt : datetime) :
  all_space s = false -> parse_date (strip s) = Ok dt ->
  DateUtils.parse_date_input parse_date s = Ok (Some (dt_date dt)).
Proof.
  intros Hs Hp. rewrite (parse_date_input_calls_parser s Hs), Hp.
  reflexivity.
Qed.

(** A date comes back only for text that is not blank. *)
Lemma parse_date_input_some_truthy (s : string) (d : date) :
  DateUtils.parse_date_input parse_date s = Ok (Some d) ->
  truthy s = true.
Proof.
  unfold DateUtils.parse_date_input. destruct (truthy s); simpl.
  - reflexivity.
  - discriminate.
Qed.

End ParseDateInput.

(** C6 (the part the code does not meet).  [parse_date_input] catches
    [ParserError], [ValueError] and [TypeError] only: when the external
    parser raises [OverflowError] on the stripped text, the exception
    leaves [parse_date_input] instead of becoming the failure value
    [None]. *)
Theorem parse_date_input_overflow_escapes
        (parse_date : string -> result datetime) (s : string) :
  all_space s = false ->
  parse_date (strip s) = Raise OverflowError ->
  DateUtils.parse_date_input parse_date s = Raise OverflowError.
Proof.
  intros Hs Hp. rewrite (parse_date_input_calls_parser _ s Hs), Hp.
  reflexivity.
Qed.

Lemma parse_date_input_overflow_escapes_witness :
  DateUtils.parse_date_input Sample.parse_date "99999999999-01-01"
  = Raise OverflowError.
Proof.
  apply (parse_date_input_overflow_escapes Sample.parse_date
           "99999999999-01-01"); reflexivity.
Defined.

Example parse_iso_date :
  DateUtils.parse_date_input Sample.parse_date "2023-12-25"
  = Ok (Some (Date 2023 12 25)).
Proof. reflexivity. Qed.

Example parse_not_a_date :
  DateUtils.parse_date_input Sample.parse_date "not a date" = Ok None.
Proof. reflexivity. Qed.

Example parse_spaces :
  DateUtils.parse_date_input Sample.parse_date "   " = Ok None.
Proof. reflexivity. Qed.

(* ===================================================================== *)
(** * The calendar: ordinals count days, weekdays follow *)
(* ===================================================================== *)

Import CalendarSpec.








Lemma read_decimal_app (s1 s2 : string) (acc : Z) :
  read_decimal acc (s1 ++ s2) = read_decimal (read_decimal acc s1) s2.
Proof.
  revert acc. induction s1 as [| c s1 IH]; simpl; intros acc.
  - reflexivity.
  - apply IH.
Qed.

Lemma all_digits_app (s1 s2 : string) :
  all_digits (s1 ++ s2) = all_digits s1 && all_digits s2.
Proof.
  induction s1 as [| c s1 IH]; simpl.
  - reflexivity.
  - rewrite IH. apply andb_assoc.
Qed.

Lemma length_app_one (s : string) (c : ascii) :
  String.length (s ++ String c EmptyString) = S (String.length s).
Proof.
  induction s as [| a s IH]; simpl; congruence.
Qed.

Lemma digit_code (n : Z) :
  nat_of_ascii (digit n) = (48 + Z.to_nat (n mod 10))%nat.
Proof.
  unfold digit. apply nat_ascii_embedding.
  assert (0 <= n mod 10 < 10) by (apply Z.mod_pos_bound; lia). lia.
Qed.

Lemma zero_padded_numeral (w : nat) :
  forall n, 0 <= n < 10 ^ Z.of_nat w -> numeral w (zero_padded w n) n.
Proof.
  induction w as [| w IH]; intros n Hn.
  - simpl in Hn. repeat split. simpl. lia.
  - rewrite Nat2Z.inj_succ, Z.pow_succ_r in Hn by lia.
    assert (Hq : 0 <= n / 10 < 10 ^ Z.of_nat w)
      by (Z.div_mod_to_equations; lia).
    destruct (IH (n / 10) Hq) as (Hlen & Hdig & Hval).
    assert (Hm : 0 <= n mod 10 < 10) by (apply Z.mod_pos_bound; lia).
    cbn [zero_padded]. repeat split.
    + rewrite length_app_one, Hlen. reflexivity.
    + rewrite all_digits_app, Hdig. cbn [all_digits andb]. unfold is_digit.
      rewrite digit_code, andb_true_r.
      apply andb_true_iff. split; apply Nat.leb_le; lia.
    + rewrite read_decimal_app, Hval. cbn [read_decimal].
      rewrite digit_code.
      Z.div_mod_to_equations; lia.
Qed.

Lemma days_in_month_le_31 (y m : Z) : days_in_month y m <= 31.
Proof.
  unfold days_in_month.
  destruct (m =? 2); [destruct (is_leap y); lia |].
  destruct ((m =? 4) || (m =? 6) || (m =? 9) || (m =? 11)); lia.
Qed.

Lemma strftime_display_format (d : date) :
  strftime "%Y-%m-%d (%a)" d =
  (unpadded_year (year d) ++ "-" ++ zero_padded 2 (month d) ++ "-"
   ++ zero_padded 2 (day d) ++ " ("
   ++ nth (Z.to_nat ((weekday d + 1) mod 7)) abday "" ++ ")")%string.
Proof. reflexivity. Qed.

Lemma unpadded_year_digits (y : Z) :
  1 <= y <= 9999 ->
  all_digits (unpadded_year y) = true
  /\ read_decimal 0 (unpadded_year y) = y
  /\ (1000 <= y -> String.length (unpadded_year y) = 4%nat).
Proof.
  intros Hy. unfold unpadded_year.
  destruct (Z.ltb_spec y 10);
    [| destruct (Z.ltb_spec y 100); [| destruct (Z.ltb_spec y 1000)]].
  - destruct (zero_padded_numeral 1 y) as (_ & Hd & Hv);
      [change (10 ^ Z.of_nat 1) with 10; lia |].
    repeat split; auto. lia.
  - destruct (zero_padded_numeral 2 y) as (_ & Hd & Hv);
      [change (10 ^ Z.of_nat 2) with 100; lia |].
    repeat split; auto. lia.
  - destruct (zero_padded_numeral 3 y) as (_ & Hd & Hv);
      [change (10 ^ Z.of_nat 3) with 1000; lia |].
    repeat split; auto. lia.
  - destruct (zero_padded_numeral 4 y) as (Hl & Hd & Hv);
      [change (10 ^ Z.of_nat 4) with 10000; lia |].
    repeat split; auto.
Qed.




Example format_christmas_2023 :
  DateUtils.format_date_for_display (Some (Date 2023 12 25))
  = "2023-12-25 (Mon)".
Proof. vm_compute. reflexivity. Qed.

Example format_year_5 :
  DateUtils.format_date_for_display (Some (Date 5 3 7)) = "5-03-07 (Mon)".
Proof. vm_compute. reflexivity. Qed.

(* ===================================================================== *)
(** * Facts about tables *)
(* ===================================================================== *)

Section TableFacts.

Context {A : Type}.
Variable pk : A -> Z.

Lemma update_length (r : A) (t : list A) :
  List.length (Table.update pk r t) = List.length t.
Proof. apply length_map. Qed.

Lemma update_keeps_ids (r : A) (t : list A) :
  map pk (Table.update pk r t) = map pk t.
Proof.
  unfold Table.update. rewrite map_map. apply map_ext.
  intros x. destruct (Z.eqb_spec (pk x) (pk r)); congruence.
Qed.

(** Rows that [p] rejects once updated drop out of the selection. *)
Lemma filter_update_rejected (p : A -> bool) (r : A) (t : list A) :
  p r = false ->
  filter p (Table.update pk r t)
  = filter (fun x => p x && negb (pk x =? pk r)) t.
Proof.
  intros Hr. induction t as [| x t IH]; simpl.
  - reflexivity.
  - destruct (pk x =? pk r); simpl.
    + rewrite Hr, andb_false_r. exact IH.
    + rewrite andb_true_r. destruct (p x); simpl; congruence.
Qed.

Lemma filter_and_le (p q : A -> bool) (t : list A) :
  (List.length (filter (fun x => p x && q x) t) <= List.length (filter p t))%nat.
Proof.
  induction t as [| x t IH]; simpl.
  - lia.
  - destruct (p x), (q x); simpl; lia.
Qed.

Lemma filter_and_lt (p q : A -> bool) (c : A) (t : list A) :
  In c t -> p c = true -> q c = false ->
  (List.length (filter (fun x => p x && q x) t) < List.length (filter p t))%nat.
Proof.
  intros Hin Hp Hq. induction t as [| x t IH]; simpl.
  - contradiction.
  - destruct Hin as [-> | Hin].
    + rewrite Hp, Hq. simpl. pose proof (filter_and_le p q t). lia.
    + specialize (IH Hin). destruct (p x), (q x); simpl; lia.
Qed.

Lemma filter_filter (p q : A -> bool) (t : list A) :
  filter p (filter q t) = filter (fun x => p x && q x) t.
Proof.
  induction t as [| x t IH]; simpl.
  - reflexivity.
  - destruct (q x); simpl; rewrite ?andb_true_r, ?andb_false_r;
      [destruct (p x) |]; congruence.
Qed.

Lemma filter_none (p : A -> bool) (t : list A) :
  find p t = None -> filter p t = [].
Proof.
  induction t as [| x t IH]; simpl.
  - reflexivity.
  - destruct (p x); [discriminate | exact IH].
Qed.

Lemma filter_nil_find (p : A -> bool) (t : list A) :
  filter p t = [] -> find p t = None.
Proof.
  induction t as [| x t IH]; simpl.
  - reflexivity.
  - destruct (p x); [discriminate | exact IH].
Qed.

(** Looking a row up by its key after an update. *)
Lemma first_by_id_update (k : Z) (r : A) (t : list A) :
  Table.first (fun x => pk x =? k) (Table.update pk r t)
  = match Table.first (fun x => pk x =? k) t with
    | Some x => Some (if pk x =? pk r then r else x)
    | None => None
    end.
Proof.
  unfold Table.first, Table.update.
  induction t as [| x t IH]; simpl.
  - reflexivity.
  - destruct (Z.eqb_spec (pk x) (pk r)) as [E | E].
    + replace (pk r =? k) with (pk x =? k) by (rewrite E; reflexivity).
      destruct (pk x =? k); [| exact IH].
      rewrite (proj2 (Z.eqb_eq _ _) E). reflexivity.
    + destruct (pk x =? k); [| exact IH].
      rewrite (proj2 (Z.eqb_neq _ _) E). reflexivity.
Qed.

Lemma find_app_l (p : A -> bool) (t u : list A) (x : A) :
  find p t = Some x -> find p (t ++ u) = Some x.
Proof.
  induction t as [| y t IH]; simpl.
  - discriminate.
  - destruct (p y); auto.
Qed.

Lemma find_app_none (p : A -> bool) (t u : list A) :
  find p t = None -> find p (t ++ u) = find p u.
Proof.
  induction t as [| y t IH]; simpl.
  - reflexivity.
  - destruct (p y); [discriminate | exact IH].
Qed.

Lemma max_id_bound (t : list A) (x : A) :
  In x t -> pk x <= fold_right Z.max 0 (map pk t).
Proof.
  induction t as [| y t IH]; simpl.
  - contradiction.
  - intros [-> | Hin]; [| specialize (IH Hin)]; lia.
Qed.

(** The key given to an inserted row is above every key in the table. *)
Lemma next_id_fresh (t : list A) (x : A) :
  In x t -> pk x < Table.next_id pk t.
Proof.
  intros Hin. unfold Table.next_id. pose proof (max_id_bound t x Hin). lia.
Qed.

Lemma next_id_positive (t : list A) : 0 < Table.next_id pk t.
Proof.
  unfold Table.next_id.
  assert (0 <= fold_right Z.max 0 (map pk t)).
  { induction t as [| y t IH]; simpl; lia. }
  lia.
Qed.

Lemma unique_insert (t : list A) (x : A) :
  Table.unique pk t -> pk x = Table.next_id pk t ->
  Table.unique pk (t ++ [x]).
Proof.
  unfold Table.unique. intros Hu Hx.
  rewrite map_app. simpl.
  apply NoDup_app; [exact Hu | constructor; [intros [] | constructor] |].
  intros k Hk [Hk' | []]. subst k.
  apply in_map_iff in Hk as (y & Hy & Hin).
  pose proof (next_id_fresh t y Hin). lia.
Qed.

Lemma unique_update (r : A) (t : list A) :
  Table.unique pk t -> Table.unique pk (Table.update pk r t).
Proof. unfold Table.unique. rewrite update_keeps_ids. auto. Qed.

Lemma unique_filter (p : A -> bool) (t : list A) :
  Table.unique pk t -> Table.unique pk (filter p t).
Proof.
  unfold Table.unique. induction t as [| x t IH]; simpl; intros Hu.
  - constructor.
  - inversion Hu as [| ? ? Hnot Hrest]; subst.
    destruct (p x); simpl; [constructor |]; auto.
    intros Hin. apply Hnot. apply in_map_iff in Hin as (y & Hy & Hin).
    apply in_map_iff. exists y. split; [exact Hy |].
    apply filter_In in Hin. tauto.
Qed.

(** Under the primary-key constraint a key names one row. *)
Lemma unique_same_key (t : list A) (x y : A) :
  Table.unique pk t -> In x t -> In y t -> pk x = pk y -> x = y.
Proof.
  unfold Table.unique. induction t as [| z t IH]; simpl; intros Hu Hx Hy E.
  - contradiction.
  - inversion Hu as [| ? ? Hnot Hrest]; subst.
    destruct Hx as [-> | Hx], Hy as [-> | Hy]; auto.
    + exfalso. apply Hnot. rewrite E. apply in_map, Hy.
    + exfalso. apply Hnot. rewrite <- E. apply in_map, Hx.
Qed.

(** An update touches the row it names and no other. *)
Lemma update_unique_spec (r c : A) (t : list A) :
  Table.unique pk t -> In c t -> pk r = pk c ->
  Table.update pk r t = map (fun x => if pk x =? pk c then r else x) t
  /\ forall x, In x t -> pk x = pk c -> x = c.
Proof.
  intros Hu Hc E. split.
  - unfold Table.update. rewrite E. reflexivity.
  - intros x Hx Ex. apply (unique_same_key t x c Hu Hx Hc Ex).
Qed.

Lemma filter_update_same (p : A -> bool) (r c : A) (t : list A) :
  Table.unique pk t -> In c t -> pk r = pk c -> p r = p c ->
  List.length (filter p (Table.update pk r t)) = List.length (filter p t).
Proof.
  intros Hu Hc E Hp.
  assert (Hall : forall x, In x t -> pk x = pk r -> x = c).
  { intros x Hx Ex. apply (unique_same_key t x c Hu Hx Hc). congruence. }
  clear Hu Hc. induction t as [| x t IH]; simpl.
  - reflexivity.
  - assert (IH' : List.length (filter p (Table.update pk r t))
                  = List.length (filter p t)).
    { apply IH. intros y Hy. apply Hall. right. exact Hy. }
    destruct (Z.eqb_spec (pk x) (pk r)) as [Ex | Ex].
    + rewrite (Hall x (or_introl eq_refl) Ex), Hp.
      destruct (p c); simpl; congruence.
    + destruct (p x); simpl; congruence.
Qed.

Lemma update_other_rows (r : A) (t : list A) (x : A) :
  In x t -> pk x <> pk r -> In x (Table.update pk r t).
Proof.
  intros Hin Hne. unfold Table.update. apply in_map_iff.
  exists x. split; [| exact Hin].
  destruct (Z.eqb_spec (pk x) (pk r)); congruence.
Qed.

End TableFacts.

(* ===================================================================== *)
(** * Facts about rows *)
(* ===================================================================== *)

Lemma ReadingStatus_eqb_eq (a b : ReadingStatus) :
  ReadingStatus_eqb a b = true <-> a = b.
Proof. destruct a, b; simpl; split; congruence. Qed.

Lemma set_status_status (now : Z) (st : ReadingStatus) (b : Book.t) :
  Book.status (Book.set_status now st b) = st.
Proof.
  unfold Book.set_status.
  destruct (ReadingStatus_eqb (Book.status b) st) eqn:E.
  - apply ReadingStatus_eqb_eq, E.
  - reflexivity.
Qed.

Lemma set_status_id (now : Z) (st : ReadingStatus) (b : Book.t) :
  Book.id (Book.set_status now st b) = Book.id b.
Proof.
  unfold Book.set_status.
  destruct (ReadingStatus_eqb (Book.status b) st); reflexivity.
Qed.

Lemma closed_not_open (book_id : Z) (d : date) (s : ReadingSession.t) :
  Manager.is_open_for book_id (ReadingSession.set_end_date d s) = false.
Proof. unfold Manager.is_open_for. simpl. apply andb_false_r. Qed.

Lemma closed_with_notes_not_open (book_id : Z) (d : date)
      (n : option string) (s : ReadingSession.t) :
  Manager.is_open_for book_id
    (ReadingSession.set_session_notes n (ReadingSession.set_end_date d s))
  = false.
Proof. unfold Manager.is_open_for. simpl. apply andb_false_r. Qed.

Lemma has_id_found (book_id : Z) (t : list Book.t) (b : Book.t) :
  Table.first (Manager.has_id book_id) t = Some b ->
  In b t /\ Book.id b = book_id.
Proof.
  intros H. apply find_some in H as [Hin Hid]. split; [exact Hin |].
  apply Z.eqb_eq, Hid.
Qed.

Lemma open_found (book_id : Z) (t : list ReadingSession.t)
      (s : ReadingSession.t) :
  Table.first (Manager.is_open_for book_id) t = Some s ->
  In s t /\ ReadingSession.book_id s = book_id
  /\ ReadingSession.end_date s = None.
Proof.
  intros H. apply find_some in H as [Hin Hopen]. split; [exact Hin |].
  unfold Manager.is_open_for in Hopen.
  apply andb_true_iff in Hopen as [Hb He].
  split; [apply Z.eqb_eq, Hb |].
  destruct (ReadingSession.end_date s); [discriminate | reflexivity].
Qed.

(** Looking a book up after [assign_status]. *)
Lemma get_after_assign_status (now book_id k : Z) (st : ReadingStatus)
      (t : list Book.t) :
  Table.first (Manager.has_id k) (Manager.assign_status now book_id st t)
  = match Table.first (Manager.has_id k) t with
    | Some b =>
        Some (if (Book.id b =? book_id)
                 && match Table.first (Manager.has_id book_id) t with
                    | Some _ => true
                    | None => false
                    end
              then Book.set_status now st b else b)
    | None => None
    end.
Proof.
  unfold Manager.assign_status.
  destruct (Table.first (Manager.has_id book_id) t) as [book |] eqn:E.
  - pose proof (has_id_found _ _ _ E) as [Hin Hid].
    unfold Manager.has_id at 1.
    rewrite (first_by_id_update Book.id k (Book.set_status now st book) t).
    fold (Manager.has_id k).
    destruct (Table.first (Manager.has_id k) t) as [b |] eqn:K;
      [| reflexivity].
    rewrite set_status_id, Hid, andb_true_r.
    destruct (Z.eqb_spec (Book.id b) book_id) as [Eb | Eb]; [| reflexivity].
    pose proof (has_id_found _ _ _ K) as [_ Hk].
    assert (Hkk : k = book_id) by congruence. subst k.
    congruence.
  - destruct (Table.first (Manager.has_id k) t); [| reflexivity].
    rewrite andb_false_r. reflexivity.
Qed.

(* ===================================================================== *)
(** * The open-session invariant *)
(* ===================================================================== *)

Section OpenSessionInvariant.

Variable parse_date : string -> result datetime.

Lemma date_or_today_absent (today : date) :
  Manager.date_or_today parse_date today None = Ok today.
Proof. reflexivity. Qed.

Lemma date_or_today_parsed (today d : date) (s : string) :
  DateUtils.parse_date_input parse_date s = Ok (Some d) ->
  Manager.date_or_today parse_date today (Some s) = Ok d.
Proof.
  intros H. unfold Manager.date_or_today.
  rewrite (parse_date_input_some_truthy parse_date s d H), H. reflexivity.
Qed.

(** Closing a row never opens a session ... *)
Lemma close_open_le (b : Z) (closed : ReadingSession.t)
      (t : list ReadingSession.t) :
  Manager.is_open_for b closed = false ->
  (List.length (filter (Manager.is_open_for b)
                  (Table.update ReadingSession.id closed t))
   <= List.length (filter (Manager.is_open_for b) t))%nat.
Proof.
  intros Hc. rewrite (filter_update_rejected _ _ _ _ Hc).
  apply filter_and_le.
Qed.

(** ... and closing the open session of a book leaves it one fewer. *)
Lemma close_open_lt (b : Z) (closed current : ReadingSession.t)
      (t : list ReadingSession.t) :
  Table.first (Manager.is_open_for b) t = Some current ->
  ReadingSession.id closed = ReadingSession.id current ->
  Manager.is_open_for b closed = false ->
  (List.length (filter (Manager.is_open_for b)
                  (Table.update ReadingSession.id closed t))
   < List.length (filter (Manager.is_open_for b) t))%nat.
Proof.
  intros Hf Hid Hc. apply find_some in Hf as [Hin Hopen].
  rewrite (filter_update_rejected _ _ _ _ Hc).
  apply (filter_and_lt _ _ current); auto.
  rewrite Hid, Z.eqb_refl. reflexivity.
Qed.

Lemma open_for_other_book (b book_id : Z) (d : date) (now k : Z) :
  Manager.is_open_for b (ReadingSession.Make k book_id d None None now)
  = (book_id =? b).
Proof. unfold Manager.is_open_for. simpl. apply andb_true_r. Qed.

Lemma start_keeps_one_open (today : date) (now book_id : Z)
      (s : option string) (db : Store) :
  (forall b, (List.length (Manager.open_sessions b db) <= 1)%nat) ->
  forall b,
    (List.length
       (Manager.open_sessions b
          (snd (Manager.start_reading_session parse_date today now book_id
                  s db))) <= 1)%nat.
Proof.
  intros Inv b. unfold Manager.start_reading_session.
  destruct (Manager.date_or_today parse_date today s) as [d | e];
    [| apply Inv].
  unfold Manager.open_sessions in *. cbn [snd reading_sessions].
  rewrite filter_app, length_app. cbn [filter].
  rewrite open_for_other_book.
  destruct (Table.first (Manager.is_open_for book_id) (reading_sessions db))
    as [current |] eqn:F.
  - destruct (Z.eqb_spec book_id b) as [-> | Hne]; cbn [List.length].
    + pose proof (close_open_lt b (ReadingSession.set_end_date d current)
                    current _ F eq_refl (closed_not_open b d current)).
      specialize (Inv b). lia.
    + pose proof (close_open_le b (ReadingSession.set_end_date d current)
                    (reading_sessions db) (closed_not_open b d current)).
      specialize (Inv b). lia.
  - destruct (Z.eqb_spec book_id b) as [-> | Hne]; cbn [List.length].
    + rewrite (filter_none _ _ F). simpl. lia.
    + specialize (Inv b). lia.
Qed.

Lemma end_keeps_one_open (today : date) (now book_id : Z)
      (s notes : option string) (completed : bool) (db : Store) :
  (forall b, (List.length (Manager.open_sessions b db) <= 1)%nat) ->
  forall b,
    (List.length
       (Manager.open_sessions b
          (snd (Manager.end_reading_session parse_date today now book_id
                  s notes completed db))) <= 1)%nat.
Proof.
  intros Inv b. unfold Manager.end_reading_session.
  destruct (Manager.date_or_today parse_date today s) as [d | e];
    [| apply Inv].
  destruct (Table.first (Manager.is_open_for book_id) (reading_sessions db))
    as [current |] eqn:F; [| apply Inv].
  unfold Manager.open_sessions in *. cbn [snd reading_sessions].
  specialize (Inv b).
  etransitivity; [apply close_open_le | exact Inv].
  destruct (truthy_opt notes).
  - apply closed_with_notes_not_open.
  - apply closed_not_open.
Qed.

Lemma delete_book_keeps_one_open (book_id : Z) (db : Store) :
  (forall b, (List.length (Manager.open_sessions b db) <= 1)%nat) ->
  forall b,
    (List.length
       (Manager.open_sessions b (snd (Manager.delete_book book_id db)))
     <= 1)%nat.
Proof.
  intros Inv b. unfold Manager.delete_book.
  destruct (Table.first (Manager.has_id book_id) (books db)); [| apply Inv].
  unfold Manager.open_sessions in *. cbn [snd reading_sessions].
  rewrite filter_filter.
  etransitivity; [apply filter_and_le | apply Inv].
Qed.

Lemma apply_keeps_one_open (op : Manager.operation) (db : Store) :
  (forall b, (List.length (Manager.open_sessions b db) <= 1)%nat) ->
  forall b,
    (List.length (Manager.open_sessions b (Manager.apply parse_date op db))
     <= 1)%nat.
Proof.
  intros Inv. destruct op; cbn [Manager.apply].
  - unfold Manager.add_book.
    destruct (Manager.isbn_taken isbn (books db)); exact Inv.
  - apply start_keeps_one_open, Inv.
  - apply end_keeps_one_open, Inv.
  - exact Inv.
  - exact Inv.
  - unfold Manager.delete_note.
    destruct (Table.first _ (notes db)); exact Inv.
  - apply delete_book_keeps_one_open, Inv.
Qed.

Lemma run_keeps_one_open (ops : list Manager.operation) :
  forall db,
    (forall b, (List.length (Manager.open_sessions b db) <= 1)%nat) ->
    forall b,
      (List.length (Manager.open_sessions b (Manager.run parse_date ops db))
       <= 1)%nat.
Proof.
  induction ops as [| op ops IH]; intros db Inv.
  - exact Inv.
  - cbn [Manager.run fold_left]. apply IH.
    apply apply_keeps_one_open, Inv.
Qed.

End OpenSessionInvariant.

(** C1.  Whatever operations are run on a new library (adding and deleting
    books, starting and ending sessions, setting a status, adding and
    deleting notes, each with any arguments and any outcome), every book
    id has at most one reading session without an end date. *)
Theorem at_most_one_open_session
        (parse_date : string -> result datetime)
        (ops : list Manager.operation) (book_id : Z) :
  (List.length
     (Manager.open_sessions book_id (Manager.run parse_date ops empty_store))
   <= 1)%nat.
Proof.
  apply run_keeps_one_open. intros b. simpl. lia.
Qed.

(* ===================================================================== *)
(** * Starting a session *)
(* ===================================================================== *)

Lemma find_filter_head {A : Type} (p : A -> bool) (t : list A) :
  find p t = match filter p t with
             | [] => None
             | x :: _ => Some x
             end.
Proof.
  induction t as [| y t IH]; simpl.
  - reflexivity.
  - destruct (p y); [reflexivity | exact IH].
Qed.

(** The only selected row is the one the query returns first. *)
Lemma first_of_single {A : Type} (p : A -> bool) (t : list A) (x : A) :
  (List.length (filter p t) <= 1)%nat -> In x t -> p x = true ->
  Table.first p t = Some x.
Proof.
  intros Hlen Hin Hp. unfold Table.first. rewrite find_filter_head.
  assert (Hx : In x (filter p t)) by (apply filter_In; auto).
  destruct (filter p t) as [| a [| b l]]; simpl in *.
  - contradiction.
  - destruct Hx as [-> | []]. reflexivity.
  - lia.
Qed.

Lemma single_of_list {A : Type} (l : list A) (x : A) :
  (List.length l <= 1)%nat -> In x l -> l = [x].
Proof.
  intros Hlen Hin. destruct l as [| a [| b l]]; simpl in *.
  - contradiction.
  - destruct Hin as [-> | []]. reflexivity.
  - lia.
Qed.

(** Under the primary-key constraint the stored row with a key is the
    one a lookup by that key returns. *)
Lemma get_stored_book (book_id : Z) (t : list Book.t) (book : Book.t) :
  Table.unique Book.id t -> In book t -> Book.id book = book_id ->
  Table.first (Manager.has_id book_id) t = Some book.
Proof.
  intros Hu Hin Hid.
  destruct (Table.first (Manager.has_id book_id) t) as [b |] eqn:F.
  - pose proof (has_id_found _ _ _ F) as [Hb Hbid].
    f_equal. apply (unique_same_key Book.id t b book Hu Hb Hin).
    congruence.
  - exfalso. apply (find_none _ _ F book) in Hin.
    unfold Manager.has_id in Hin. rewrite Hid, Z.eqb_refl in Hin.
    discriminate.
Qed.

Lemma absent_book_not_found (book_id : Z) (t : list Book.t) :
  (forall b, In b t -> Book.id b <> book_id) ->
  Table.first (Manager.has_id book_id) t = None.
Proof.
  intros H.
  destruct (Table.first (Manager.has_id book_id) t) as [b |] eqn:F;
    [| reflexivity].
  pose proof (has_id_found _ _ _ F) as [Hb Hid].
  exfalso. apply (H b Hb Hid).
Qed.

(** The row that [set_status] leaves, field by field. *)
Lemma set_status_row (now : Z) (st : ReadingStatus) (b : Book.t) :
  Book.set_status now st b
  = Book.Make (Book.id b) (Book.title b) (Book.author b) (Book.isbn b)
      (Book.publisher b) (Book.publication_year b) (Book.pages b)
      (Book.book_type b) st (Book.added_date b)
      (if ReadingStatus_eqb (Book.status b) st
       then Book.last_modified b else now).
Proof.
  unfold Book.set_status.
  destruct (ReadingStatus_eqb (Book.status b) st) eqn:E; [| reflexivity].
  apply ReadingStatus_eqb_eq in E. destruct b. simpl in *. subst.
  reflexivity.
Qed.

(** C2.  Take a stored book whose one open session is [current], and a
    date text that parses to [d].  Starting a session writes [d] as the
    end date of [current] and changes no other field of it, adds one new
    row for the book (start date [d], no end date, no notes) under a key
    no row had, keeps every other session row, and leaves the new row as
    the book's only open session.  The book's status is READING
    afterwards, its other fields unchanged apart from the last-modified
    time when the status changed.  The book's number of sessions and the
    table's both grow by one. *)
Theorem start_session_closes_prior
        (parse_date : string -> result datetime) (today : date)
        (now book_id : Z) (s : string) (d : date)
        (current : ReadingSession.t) (book : Book.t) (db : Store) :
  Table.unique ReadingSession.id (reading_sessions db) ->
  Table.unique Book.id (books db) ->
  In book (books db) ->
  Book.id book = book_id ->
  In current (reading_sessions db) ->
  ReadingSession.book_id current = book_id ->
  ReadingSession.end_date current = None ->
  (List.length (Manager.open_sessions book_id db) <= 1)%nat ->
  DateUtils.parse_date_input parse_date s = Ok (Some d) ->
  let closed :=
    ReadingSession.Make (ReadingSession.id current) book_id
      (ReadingSession.start_date current) (Some d)
      (ReadingSession.session_notes current)
      (ReadingSession.created_date current) in
  let new_session :=
    ReadingSession.Make
      (Table.next_id ReadingSession.id (reading_sessions db))
      book_id d None None now in
  let reading :=
    Book.Make (Book.id book) (Book.title book) (Book.author book)
      (Book.isbn book) (Book.publisher book) (Book.publication_year book)
      (Book.pages book) (Book.book_type book) READING
      (Book.added_date book)
      (if ReadingStatus_eqb (Book.status book) READING
       then Book.last_modified book else now) in
  exists db',
    Manager.start_reading_session parse_date today now book_id (Some s) db
    = (Ok new_session, db')
    /\ reading_sessions db'
       = Table.update ReadingSession.id closed (reading_sessions db)
         ++ [new_session]
    /\ Table.first
         (fun x => ReadingSession.id x =? ReadingSession.id current)
         (reading_sessions db') = Some closed
    /\ (forall x, In x (reading_sessions db) -> x <> current ->
                  In x (reading_sessions db'))
    /\ ~ In new_session (reading_sessions db)
    /\ Manager.open_sessions book_id db' = [new_session]
    /\ Manager.get_book_by_id book_id db' = Some reading
    /\ (forall b, In b (books db) -> Book.id b <> book_id ->
                  In b (books db'))
    /\ notes db' = notes db
    /\ List.length (Manager.sessions_of book_id db')
       = S (List.length (Manager.sessions_of book_id db))
    /\ List.length (reading_sessions db')
       = S (List.length (reading_sessions db)).
Proof.
  intros Hu Hub Hbook Hbid Hin Hcb Hce Hone Hp closed new_session reading.
  assert (Hopen : Manager.is_open_for book_id current = true).
  { unfold Manager.is_open_for. rewrite Hcb, Hce, Z.eqb_refl. reflexivity. }
  assert (Hf : Table.first (Manager.is_open_for book_id)
                 (reading_sessions db) = Some current)
    by (apply first_of_single; assumption).
  assert (Hg : Table.first (Manager.has_id book_id) (books db) = Some book)
    by (apply get_stored_book; assumption).
  assert (Hclosed : ReadingSession.set_end_date d current = closed).
  { unfold closed, ReadingSession.set_end_date. rewrite Hcb. reflexivity. }
  unfold Manager.start_reading_session.
  rewrite (date_or_today_parsed parse_date today d s Hp), Hf, Hclosed.
  fold new_session.
  eexists. split; [reflexivity |]. cbn [reading_sessions books notes].
  split; [reflexivity |].
  assert (Hnotopen : Manager.is_open_for book_id closed = false).
  { unfold Manager.is_open_for, closed. simpl. apply andb_false_r. }
  split; [| split; [| split; [| split; [| split; [| split;
    [| split; [| split]]]]]]].
  - apply find_app_l.
    rewrite (first_by_id_update ReadingSession.id).
    destruct (Table.first
                (fun x => ReadingSession.id x =? ReadingSession.id current)
                (reading_sessions db)) as [x |] eqn:K.
    + apply find_some in K as [_ K]. apply Z.eqb_eq in K.
      cbn [closed ReadingSession.id]. rewrite K, Z.eqb_refl. reflexivity.
    + exfalso. apply (find_none _ _ K current) in Hin.
      rewrite Z.eqb_refl in Hin. discriminate.
  - intros x Hx Hne. apply in_or_app. left.
    apply update_other_rows; [exact Hx |].
    intros E. apply Hne.
    apply (unique_same_key ReadingSession.id _ x current Hu Hx Hin E).
  - intros Hnew. apply (next_id_fresh ReadingSession.id) in Hnew.
    cbn [new_session ReadingSession.id] in Hnew. lia.
  - unfold Manager.open_sessions in *. cbn [reading_sessions].
    rewrite filter_app. cbn [filter].
    unfold new_session at 1. rewrite open_for_other_book, Z.eqb_refl.
    pose proof (close_open_lt book_id closed current _ Hf eq_refl Hnotopen)
      as Hlt.
    destruct (filter (Manager.is_open_for book_id)
                (Table.update ReadingSession.id closed (reading_sessions db)));
      [reflexivity | simpl in Hlt; lia].
  - unfold Manager.get_book_by_id. cbn [books].
    rewrite get_after_assign_status, Hg, Hbid, Z.eqb_refl. cbn [andb].
    rewrite set_status_row. reflexivity.
  - intros b Hb Hne. unfold Manager.assign_status. rewrite Hg.
    apply update_other_rows; [exact Hb |].
    rewrite set_status_id, Hbid. exact Hne.
  - reflexivity.
  - unfold Manager.sessions_of. cbn [reading_sessions].
    rewrite filter_app, length_app.
    cbn [filter new_session ReadingSession.book_id].
    rewrite Z.eqb_refl. cbn [List.length].
    rewrite (filter_update_same ReadingSession.id _ closed current);
      auto; [lia |].
    cbn [closed ReadingSession.book_id]. rewrite Hcb. reflexivity.
  - rewrite length_app, update_length. simpl. lia.
Qed.

Lemma start_session_closes_prior_witness :
  exists db',
    Manager.start_reading_session Sample.parse_date Sample.today 200 1
      (Some "2024-01-10") Sample.library_marked
    = (Ok (ReadingSession.Make 3 1 (Date 2024 1 10) None None 200), db')
    /\ reading_sessions db'
       = [Sample.dune_first;
          ReadingSession.Make 2 1 (Date 2023 12 25) (Some (Date 2024 1 10))
            None 120;
          ReadingSession.Make 3 1 (Date 2024 1 10) None None 200]
    /\ Manager.open_sessions 1 db'
       = [ReadingSession.Make 3 1 (Date 2024 1 10) None None 200]
    /\ Manager.get_book_by_id 1 db'
       = Some (Book.Make 1 "Dune" "Frank Herbert" (Some "9780441172719")
                 None (Some 1965) (Some 412) PHYSICAL READING 100 200).
Proof.
  destruct (start_session_closes_prior Sample.parse_date Sample.today 200 1
              "2024-01-10" (Date 2024 1 10) Sample.dune_open
              Sample.dune_done Sample.library_marked)
    as (db' & Hrun & Hrows & _ & _ & _ & Hopen & Hget & _).
  - unfold Table.unique. simpl.
    repeat constructor; simpl; intuition discriminate.
  - unfold Table.unique. simpl.
    repeat constructor; simpl; intuition discriminate.
  - left. reflexivity.
  - reflexivity.
  - right. left. reflexivity.
  - reflexivity.
  - reflexivity.
  - simpl. lia.
  - reflexivity.
  - exists db'. repeat split; assumption.
Defined.



(* ===================================================================== *)
(** * Ending a session *)
(* ===================================================================== *)

(** C3 as stated does not hold: [end_reading_session] has no return
    value, so a call that found nothing to end and a call that ended a
    session hand the same result to the caller.  No test on the result
    tells the two apart (book 2 of the sample library has no open session,
    book 1 has one). *)
Lemma end_session_no_signal_counterexample :
  Manager.open_sessions 2 Sample.library = []
  /\ Manager.open_sessions 1 Sample.library = [Sample.dune_open]
  /\ ~ exists is_noop : result unit -> bool,
         is_noop (fst (Manager.end_reading_session Sample.parse_date
                         Sample.today 200 2 None None false Sample.library))
         = true
         /\ is_noop (fst (Manager.end_reading_session Sample.parse_date
                            Sample.today 200 1 None None false
                            Sample.library))
            = false.
Proof.
  split; [reflexivity | split; [reflexivity |]].
  intros (is_noop & H2 & H1). simpl in H1, H2. congruence.
Qed.

(** C3, amended.  On a book (its id one the database can hold) with no
    open session, ending a session with a date that resolves (no text, or
    text that parses) raises nothing,
    returns the same empty result as any other call, and leaves the whole
    store (sessions, books, notes) as it was. *)
Theorem end_session_without_open_is_noop
        (parse_date : string -> result datetime) (today : date)
        (now book_id : Z) (end_date_str session_notes : option string)
        (completed : bool) (end_date : date) (db : Store) :
  Manager.sqlite_int book_id = true ->
  Manager.open_sessions book_id db = [] ->
  Manager.date_or_today parse_date today end_date_str = Ok end_date ->
  Manager.end_reading_session parse_date today now book_id end_date_str
    session_notes completed db = (Ok tt, db).
Proof.
  intros _ Hopen Hd. unfold Manager.end_reading_session. rewrite Hd.
  unfold Manager.open_sessions in Hopen.
  unfold Table.first. rewrite (filter_nil_find _ _ Hopen). reflexivity.
Qed.

Lemma end_session_without_open_is_noop_witness :
  Manager.end_reading_session Sample.parse_date Sample.today 200 2
    (Some "2024-01-10") (Some "done") true Sample.library
  = (Ok tt, Sample.library).
Proof.
  apply (end_session_without_open_is_noop Sample.parse_date Sample.today
           200 2 (Some "2024-01-10") (Some "done") true (Date 2024 1 10)
           Sample.library); reflexivity.
Defined.

(** C9 as stated does not hold: when the status changes, the UPDATE of
    the book row also refreshes its last-modified time. *)
Lemma end_session_completed_touches_last_modified :
  exists before after,
    Manager.get_book_by_id 1 Sample.library = Some before
    /\ Manager.get_book_by_id 1
         (snd (Manager.end_reading_session Sample.parse_date Sample.today
                 200 1 None None true Sample.library)) = Some after
    /\ Book.status after = COMPLETED
    /\ Book.last_modified before = 100
    /\ Book.last_modified after = 200.
Proof.
  exists Sample.dune. eexists. repeat split.
Qed.

(** C9, amended.  On a book with an open session and with a date that
    resolves, ending the session with [completed = false] leaves the books
    table as it was; with [completed = true] the book's status becomes
    COMPLETED and its id, title, author, ISBN, publisher, year, pages,
    type and added time stay as they were, while its last-modified time
    becomes the time of the call unless the status already was COMPLETED;
    every other book is as it was. *)
Theorem end_session_status_frame
        (parse_date : string -> result datetime) (today : date)
        (now book_id : Z) (end_date_str session_notes : option string)
        (completed : bool) (end_date : date)
        (current : ReadingSession.t) (book : Book.t) (db : Store) :
  Table.first (Manager.is_open_for book_id) (reading_sessions db)
  = Some current ->
  Manager.get_book_by_id book_id db = Some book ->
  Manager.date_or_today parse_date today end_date_str = Ok end_date ->
  exists db',
    Manager.end_reading_session parse_date today now book_id end_date_str
      session_notes completed db = (Ok tt, db')
    /\ (completed = false -> books db' = books db)
    /\ (completed = true ->
        exists book',
          Manager.get_book_by_id book_id db' = Some book'
          /\ Book.status book' = COMPLETED
          /\ Book.id book' = Book.id book
          /\ Book.title book' = Book.title book
          /\ Book.author book' = Book.author book
          /\ Book.isbn book' = Book.isbn book
          /\ Book.publisher book' = Book.publisher book
          /\ Book.publication_year book' = Book.publication_year book
          /\ Book.pages book' = Book.pages book
          /\ Book.book_type book' = Book.book_type book
          /\ Book.added_date book' = Book.added_date book
          /\ Book.last_modified book'
             = if ReadingStatus_eqb (Book.status book) COMPLETED
               then Book.last_modified book else now)
    /\ (forall other, other <> book_id ->
          Manager.get_book_by_id other db'
          = Manager.get_book_by_id other db).
Proof.
  intros Hf Hb Hd. unfold Manager.end_reading_session. rewrite Hd, Hf.
  eexists. split; [reflexivity |]. cbn [books].
  split; [| split].
  - intros ->. reflexivity.
  - intros ->. unfold Manager.get_book_by_id in *. cbn [books].
    rewrite get_after_assign_status, Hb.
    pose proof (has_id_found _ _ _ Hb) as [_ Hid].
    rewrite Hid, Z.eqb_refl. cbn [andb].
    eexists. split; [reflexivity |].
    unfold Book.set_status.
    destruct (ReadingStatus_eqb (Book.status book) COMPLETED) eqn:E.
    + apply ReadingStatus_eqb_eq in E. repeat split; auto.
    + repeat split; cbn; auto.
  - intros other Hne. unfold Manager.get_book_by_id. cbn [books].
    destruct completed; [| reflexivity].
    rewrite get_after_assign_status.
    destruct (Table.first (Manager.has_id other) (books db)) as [b |] eqn:K;
      [| reflexivity].
    pose proof (has_id_found _ _ _ K) as [_ Hk].
    destruct (Z.eqb_spec (Book.id b) book_id); [congruence | reflexivity].
Qed.

Lemma end_session_status_frame_witness :
  exists db',
    Manager.end_reading_session Sample.parse_date Sample.today 200 1
      (Some "2024-01-10") None true Sample.library = (Ok tt, db')
    /\ Manager.get_book_by_id 1 db'
       = Some (Book.Make 1 "Dune" "Frank Herbert" (Some "9780441172719")
                 None (Some 1965) (Some 412) PHYSICAL COMPLETED 100 200).
Proof.
  destruct (end_session_status_frame Sample.parse_date Sample.today 200 1
              (Some "2024-01-10") None true (Date 2024 1 10)
              Sample.dune_open Sample.dune Sample.library)
    as (db' & Hrun & _ & Hdone & _); try reflexivity.
  exists db'. split; [exact Hrun |].
  destruct (Hdone eq_refl) as (book' & Hget & _).
  rewrite Hget. f_equal.
  cbv in Hrun. inversion Hrun; subst db'. cbv in Hget.
  inversion Hget. reflexivity.
Defined.

(* ===================================================================== *)
(** * Adding and deleting books *)
(* ===================================================================== *)

Lemma isbn_taken_iff (isbn : string) (t : list Book.t) :
  Manager.isbn_taken (Some isbn) t = true
  <-> exists b, In b t /\ Book.isbn b = Some isbn.
Proof.
  unfold Manager.isbn_taken. rewrite existsb_exists. split.
  - intros (b & Hin & Heq). exists b. split; [exact Hin |].
    unfold Manager.opt_string_eqb in Heq.
    destruct (Book.isbn b) as [i |]; [| discriminate].
    apply String.eqb_eq in Heq. congruence.
  - intros (b & Hin & Heq). exists b. split; [exact Hin |].
    rewrite Heq. simpl. apply String.eqb_refl.
Qed.

(** C5.  When a stored book has a non-null ISBN, adding a book with the
    same ISBN (and a year and a page count, if given, that the database
    can hold) fails with the database's uniqueness error and the store,
    the first book included, is left as it was. *)
Theorem add_book_duplicate_isbn_rejected
        (now : Z) (title author : string) (book_type : BookType)
        (isbn : string) (publisher : option string)
        (publication_year pages : option Z) (first : Book.t) (db : Store) :
  Manager.sqlite_int_opt publication_year = true ->
  Manager.sqlite_int_opt pages = true ->
  In first (books db) ->
  Book.isbn first = Some isbn ->
  exists msg,
    Manager.add_book now title author book_type (Some isbn) publisher
      publication_year pages db = (Raise (IntegrityError msg), db).
Proof.
  intros _ _ Hin Hisbn. unfold Manager.add_book.
  assert (Ht : Manager.isbn_taken (Some isbn) (books db) = true).
  { apply isbn_taken_iff. exists first. split; assumption. }
  rewrite Ht. eexists. reflexivity.
Qed.

Lemma add_book_duplicate_isbn_rejected_witness :
  exists msg,
    Manager.add_book 300 "Dune Messiah" "Frank Herbert" EBOOK
      (Some "9780441172719") None (Some 1969) None Sample.library
    = (Raise (IntegrityError msg), Sample.library).
Proof.
  apply (add_book_duplicate_isbn_rejected 300 "Dune Messiah" "Frank Herbert"
           EBOOK "9780441172719" None (Some 1969) None Sample.dune
           Sample.library).
  - reflexivity.
  - reflexivity.
  - left. reflexivity.
  - reflexivity.
Defined.

(** C4 as stated does not hold for [DatabaseManager.add_book]: it makes no
    check on the title and the author and stores a book whose title and
    author are both empty. *)
Lemma add_book_accepts_empty_title :
  exists book,
    Manager.add_book 300 "" "" PHYSICAL None None None None empty_store
    = (Ok book, MkStore [book] [] [])
    /\ Book.title book = "" /\ Book.author book = "".
Proof. eexists. repeat split. Qed.

(** C4, amended.  The required-field check is made by the add-book form:
    when the title or the author is empty once stripped of white space,
    [_submit_form] shows "Title is required" or "Author is required" and
    does not dismiss the dialog, so [add_book] is not called and the store
    is left as it was. *)
Theorem add_book_form_requires_title_author
        (int : string -> option Z) (now : Z)
        (f : AddBookScreen.Form) (db : Store) :
  all_space (AddBookScreen.title_input f) = true
  \/ all_space (AddBookScreen.author_input f) = true ->
  (exists message focus,
      AddBookScreen._submit_form int f
      = AddBookScreen.ShowError message focus
      /\ (message = "Title is required" \/ message = "Author is required"))
  /\ AddBookScreen.submit int now f db = db.
Proof.
  intros H.
  assert (Hform : exists message focus,
             AddBookScreen._submit_form int f
             = AddBookScreen.ShowError message focus
             /\ (message = "Title is required"
                 \/ message = "Author is required")).
  { unfold AddBookScreen._submit_form.
    destruct (truthy (strip (AddBookScreen.title_input f))) eqn:Ht;
      cbn [negb].
    - destruct H as [H | H].
      + rewrite (strip_all_space _ H) in Ht. discriminate.
      + rewrite (strip_all_space _ H). cbn [truthy negb].
        eexists. eexists. split; [reflexivity | right; reflexivity].
    - eexists. eexists. split; [reflexivity | left; reflexivity]. }
  split; [exact Hform |].
  destruct Hform as (message & focus & Hf & _).
  unfold AddBookScreen.submit. rewrite Hf. reflexivity.
Qed.

Lemma add_book_form_requires_title_author_witness :
  (exists message focus,
      AddBookScreen._submit_form Sample.int
        (AddBookScreen.MkForm "  " "Jane Austen" EBOOK "" "" "" "" "" "")
      = AddBookScreen.ShowError message focus
      /\ (message = "Title is required" \/ message = "Author is required"))
  /\ AddBookScreen.submit Sample.int 300
       (AddBookScreen.MkForm "  " "Jane Austen" EBOOK "" "" "" "" "" "")
       Sample.library = Sample.library.
Proof.
  apply (add_book_form_requires_title_author Sample.int 300
           (AddBookScreen.MkForm "  " "Jane Austen" EBOOK "" "" "" "" "" "")
           Sample.library).
  left. reflexivity.
Defined.

Lemma order_by_desc_nil {A : Type} (leb : A -> A -> bool) :
  Table.order_by_desc leb [] = [].
Proof. reflexivity. Qed.

Lemma filter_negb_same {A : Type} (p : A -> bool) (t : list A) :
  filter p (filter (fun x => negb (p x)) t) = [].
Proof.
  induction t as [| x t IH]; simpl.
  - reflexivity.
  - destruct (p x) eqn:E; simpl; [| rewrite E]; exact IH.
Qed.

Lemma filter_negb_other {A : Type} (key : A -> Z) (k other : Z)
      (t : list A) :
  other <> k ->
  filter (fun x => key x =? other) (filter (fun x => negb (key x =? k)) t)
  = filter (fun x => key x =? other) t.
Proof.
  intros Hne. induction t as [| x t IH]; simpl.
  - reflexivity.
  - destruct (Z.eqb_spec (key x) k) as [E | E]; simpl.
    + destruct (Z.eqb_spec (key x) other); [congruence | exact IH].
    + destruct (key x =? other); [f_equal |]; exact IH.
Qed.

Lemma find_delete_same {A : Type} (key : A -> Z) (k : Z) (t : list A) :
  find (fun x => key x =? k) (Table.delete key k t) = None.
Proof.
  unfold Table.delete. induction t as [| x t IH]; simpl.
  - reflexivity.
  - destruct (key x =? k) eqn:E; simpl; [| rewrite E]; exact IH.
Qed.

Lemma find_delete_other {A : Type} (key : A -> Z) (k other : Z)
      (t : list A) :
  other <> k ->
  find (fun x => key x =? other) (Table.delete key k t)
  = find (fun x => key x =? other) t.
Proof.
  intros Hne. unfold Table.delete. induction t as [| x t IH]; simpl.
  - reflexivity.
  - destruct (Z.eqb_spec (key x) k) as [E | E]; simpl.
    + destruct (Z.eqb_spec (key x) other); [congruence | exact IH].
    + destruct (key x =? other); [reflexivity | exact IH].
Qed.

(** C8.  Deleting a stored book returns [True] and removes the book, all
    its reading sessions and all its notes: afterwards no book, session
    or note can be queried by that id, while the books, sessions and
    notes of every other id are as they were.  Deleting an id (one the
    database can hold) that no book has returns [False], raises nothing
    and changes nothing. *)
Theorem delete_book_cascades (book_id : Z) (db : Store) :
  (forall book, Manager.get_book_by_id book_id db = Some book ->
     exists db',
       Manager.delete_book book_id db = (Ok true, db')
       /\ Manager.get_book_by_id book_id db' = None
       /\ Manager.get_reading_sessions book_id db' = []
       /\ Manager.get_notes_for_book book_id db' = []
       /\ (forall s, In s (reading_sessions db') ->
                     ReadingSession.book_id s <> book_id)
       /\ (forall n, In n (notes db') -> Note.book_id n <> book_id)
       /\ (forall other, other <> book_id ->
             Manager.get_book_by_id other db'
             = Manager.get_book_by_id other db
             /\ Manager.get_reading_sessions other db'
                = Manager.get_reading_sessions other db
             /\ Manager.get_notes_for_book other db'
                = Manager.get_notes_for_book other db))
  /\ (Manager.sqlite_int book_id = true ->
      (forall b, In b (books db) -> Book.id b <> book_id) ->
      Manager.delete_book book_id db = (Ok false, db)).
Proof.
  split.
  - intros book Hb. unfold Manager.get_book_by_id in Hb.
    pose proof (has_id_found _ _ _ Hb) as [_ Hid].
    unfold Manager.delete_book. rewrite Hb, Hid.
    eexists. split; [reflexivity |].
    unfold Manager.get_book_by_id, Manager.get_reading_sessions,
      Manager.get_notes_for_book.
    cbn [books reading_sessions notes].
    split; [apply (find_delete_same Book.id) |].
    split; [rewrite (filter_negb_same
                       (fun s => ReadingSession.book_id s =? book_id));
            reflexivity |].
    split; [rewrite (filter_negb_same (fun n => Note.book_id n =? book_id));
            reflexivity |].
    split; [| split].
    + intros s Hs E. apply filter_In in Hs as [_ Hs].
      rewrite E, Z.eqb_refl in Hs. discriminate.
    + intros n Hn E. apply filter_In in Hn as [_ Hn].
      rewrite E, Z.eqb_refl in Hn. discriminate.
    + intros other Hne. split; [| split].
      * apply (find_delete_other Book.id); exact Hne.
      * rewrite (filter_negb_other ReadingSession.book_id); auto.
      * rewrite (filter_negb_other Note.book_id); auto.
  - intros _ Habsent. unfold Manager.delete_book.
    rewrite (absent_book_not_found book_id (books db) Habsent).
    reflexivity.
Qed.

Lemma delete_book_cascades_witness :
  (exists db',
      Manager.delete_book 1 Sample.library = (Ok true, db')
      /\ Manager.get_book_by_id 1 db' = None
      /\ Manager.get_reading_sessions 1 db' = []
      /\ Manager.get_notes_for_book 1 db' = [])
  /\ Manager.delete_book 99 Sample.library = (Ok false, Sample.library).
Proof.
  split.
  - destruct (proj1 (delete_book_cascades 1 Sample.library) Sample.dune
                eq_refl) as (db' & H1 & H2 & H3 & H4 & _).
    exists db'. repeat split; assumption.
  - apply (proj2 (delete_book_cascades 99 Sample.library)).
    + reflexivity.
    + simpl. intros b [<- | [<- | []]]; discriminate.
Defined.

(* ===================================================================== *)
(** * Further properties of the date utilities *)
(* ===================================================================== *)

Lemma lstrip_head (s : string) :
  match lstrip s with
  | EmptyString => True
  | String c _ => isspace c = false
  end.
Proof.
  induction s as [| c s IH]; simpl.
  - exact I.
  - destruct (isspace c) eqn:E; [exact IH | exact E].
Qed.

Lemma rstrip_keeps_head (c : ascii) (s : string) :
  isspace c = false -> exists r, rstrip (String c s) = String c r.
Proof.
  intros Hc. simpl. destruct (rstrip s).
  - rewrite Hc. eexists. reflexivity.
  - eexists. reflexivity.
Qed.

Lemma rstrip_idempotent (s : string) : rstrip (rstrip s) = rstrip s.
Proof.
  induction s as [| c s IH]; simpl.
  - reflexivity.
  - destruct (rstrip s) as [| a r] eqn:E.
    + destruct (isspace c) eqn:Hc; simpl; [| rewrite Hc]; reflexivity.
    + assert (G : forall x, rstrip x = String a r ->
                          rstrip (String c x) = String c (String a r))
        by (intros x Hx; simpl; rewrite Hx; reflexivity).
      apply G, IH.
Qed.

Lemma strip_idempotent (s : string) : strip (strip s) = strip s.
Proof.
  unfold strip. pose proof (lstrip_head s) as H.
  destruct (lstrip s) as [| c x] eqn:E.
  - reflexivity.
  - destruct (rstrip_keeps_head c x H) as (r & Hr).
    rewrite Hr. cbn [lstrip]. rewrite H, <- Hr.
    apply rstrip_idempotent.
Qed.

Lemma all_space_strip (s : string) :
  all_space (strip s) = all_space s.
Proof.
  destruct (all_space s) eqn:E.
  - rewrite (strip_all_space s E). reflexivity.
  - destruct (all_space (strip s)) eqn:E'; [| reflexivity].
    apply strip_empty_iff in E'. rewrite strip_idempotent in E'.
    apply strip_empty_iff in E'. congruence.
Qed.

(** X1.  Blank text (empty, or white space only) is a failure for both
    [parse_date_input] and [validate_date_input], whatever the parser
    would do with it. *)
Theorem blank_date_text_is_failure
        (parse_date : string -> result datetime) (s : string) :
  all_space s = true ->
  DateUtils.parse_date_input parse_date s = Ok None
  /\ DateUtils.validate_date_input parse_date s = Ok false.
Proof.
  intros H. unfold DateUtils.validate_date_input.
  rewrite (parse_date_input_blank parse_date s H). split; reflexivity.
Qed.

Lemma blank_date_text_is_failure_witness :
  DateUtils.parse_date_input Sample.parse_date "   " = Ok None
  /\ DateUtils.validate_date_input Sample.parse_date "   " = Ok false.
Proof.
  apply (blank_date_text_is_failure Sample.parse_date "   "). reflexivity.
Defined.

(** X2.  Text on which the parser raises [ParserError], another [ValueError]
    or [TypeError] is a failure: [parse_date_input] returns [None] and
    [validate_date_input] returns [False], without raising. *)
Theorem rejected_date_text_is_failure
        (parse_date : string -> result datetime) (s : string) (e : exn) :
  parse_date (strip s) = Raise e ->
  e = ParserError \/ (exists msg, e = ValueError msg) \/ e = TypeError ->
  DateUtils.parse_date_input parse_date s = Ok None
  /\ DateUtils.validate_date_input parse_date s = Ok false.
Proof.
  intros Hp He. unfold DateUtils.validate_date_input.
  rewrite (parse_date_input_unparseable parse_date s e Hp).
  - split; reflexivity.
  - destruct He as [-> | [(msg & ->) | ->]]; reflexivity.
Qed.

Lemma rejected_date_text_is_failure_witness :
  DateUtils.parse_date_input Sample.parse_date "not a date" = Ok None
  /\ DateUtils.validate_date_input Sample.parse_date "not a date"
     = Ok false.
Proof.
  apply (rejected_date_text_is_failure Sample.parse_date "not a date"
           ParserError).
  - reflexivity.
  - left. reflexivity.
Defined.

(** X3.  White space around the date text does not matter: the text and its
    stripped form are parsed alike. *)
Theorem parse_date_input_ignores_surrounding_space
        (parse_date : string -> result datetime) (s : string) :
  DateUtils.parse_date_input parse_date s
  = DateUtils.parse_date_input parse_date (strip s).
Proof.
  destruct (all_space s) eqn:E.
  - rewrite (parse_date_input_blank parse_date s E).
    rewrite (strip_all_space s E). reflexivity.
  - rewrite (parse_date_input_calls_parser parse_date s E).
    rewrite (parse_date_input_calls_parser parse_date (strip s))
      by (rewrite all_space_strip; exact E).
    rewrite strip_idempotent. reflexivity.
Qed.

(** X4.  A successful parse keeps the calendar date and drops the time of
    day. *)
Theorem parse_date_input_keeps_date_only
        (parse_date : string -> result datetime) (s : string)
        (d : date) (h mi sec us : Z) :
  all_space s = false ->
  parse_date (strip s) = Ok (DateTime d h mi sec us) ->
  DateUtils.parse_date_input parse_date s = Ok (Some d)
  /\ DateUtils.validate_date_input parse_date s = Ok true.
Proof.
  intros Hs Hp. unfold DateUtils.validate_date_input.
  rewrite (parse_date_input_parsed parse_date s _ Hs Hp).
  split; reflexivity.
Qed.

Lemma parse_date_input_keeps_date_only_witness :
  DateUtils.parse_date_input Sample.parse_date " 2023-12-25 "
  = Ok (Some (Date 2023 12 25))
  /\ DateUtils.validate_date_input Sample.parse_date " 2023-12-25 "
     = Ok true.
Proof.
  apply (parse_date_input_keeps_date_only Sample.parse_date " 2023-12-25 "
           (Date 2023 12 25) 0 0 0 0); reflexivity.
Defined.

Lemma append_same_length (a b x y : string) :
  String.length a = String.length b ->
  (a ++ x)%string = (b ++ y)%string -> a = b /\ x = y.
Proof.
  revert b. induction a as [| c a IH]; intros [| c' b] Hlen H;
    simpl in *; try discriminate.
  - auto.
  - inversion H; subst. destruct (IH b) as [-> ->]; auto.
Qed.

Lemma zero_padded_inj (w : nat) (n m : Z) :
  0 <= n < 10 ^ Z.of_nat w -> 0 <= m < 10 ^ Z.of_nat w ->
  zero_padded w n = zero_padded w m -> n = m.
Proof.
  intros Hn Hm E.
  destruct (zero_padded_numeral w n Hn) as (_ & _ & Vn).
  destruct (zero_padded_numeral w m Hm) as (_ & _ & Vm).
  congruence.
Qed.

Lemma zero_padded_length (w : nat) (n : Z) :
  String.length (zero_padded w n) = w.
Proof.
  revert n. induction w as [| w IH]; intros n; cbn [zero_padded].
  - reflexivity.
  - rewrite length_app_one, IH. reflexivity.
Qed.

Lemma abday_length (d : date) :
  String.length (nth (Z.to_nat ((weekday d + 1) mod 7)) abday "") = 3%nat.
Proof.
  assert (Hr : 0 <= (weekday d + 1) mod 7 < 7)
    by (apply Z.mod_pos_bound; lia).
  generalize dependent ((weekday d + 1) mod 7). intros r Hr.
  assert (Hc : r = 0 \/ r = 1 \/ r = 2 \/ r = 3 \/ r = 4 \/ r = 5 \/ r = 6)
    by lia.
  repeat (destruct Hc as [-> | Hc]); try subst r; reflexivity.
Qed.

Lemma length_app_string (a b : string) :
  String.length (a ++ b)%string = (String.length a + String.length b)%nat.
Proof. induction a as [| c a IH]; simpl; congruence. Qed.

Lemma display_length (d : date) :
  String.length (strftime "%Y-%m-%d (%a)" d)
  = (String.length (unpadded_year (year d)) + 12)%nat.
Proof.
  rewrite strftime_display_format.
  rewrite !length_app_string, !zero_padded_length, abday_length.
  simpl. lia.
Qed.

(** X5.  The display text determines the date: two different dates are
    never displayed alike, whether or not their years have four
    digits. *)
Theorem format_date_for_display_injective (d1 d2 : date) :
  valid_date d1 -> valid_date d2 ->
  DateUtils.format_date_for_display (Some d1)
  = DateUtils.format_date_for_display (Some d2) ->
  d1 = d2.
Proof.
  intros (Hy1 & Hm1 & Hd1) (Hy2 & Hm2 & Hd2).
  pose proof (days_in_month_le_31 (year d1) (month d1)).
  pose proof (days_in_month_le_31 (year d2) (month d2)).
  unfold DateUtils.format_date_for_display. intros E.
  assert (Hlen : String.length (unpadded_year (year d1))
                 = String.length (unpadded_year (year d2))).
  { pose proof (f_equal String.length E) as L.
    rewrite !display_length in L. lia. }
  rewrite !strftime_display_format in E.
  apply append_same_length in E as [Ey E]; [| exact Hlen].
  apply (append_same_length "-" "-") in E as [_ E]; [| reflexivity].
  apply append_same_length in E as [Em E];
    [| rewrite !zero_padded_length; reflexivity].
  apply (append_same_length "-" "-") in E as [_ E]; [| reflexivity].
  apply append_same_length in E as [Ed _];
    [| rewrite !zero_padded_length; reflexivity].
  destruct (unpadded_year_digits (year d1) Hy1) as (_ & V1 & _).
  destruct (unpadded_year_digits (year d2) Hy2) as (_ & V2 & _).
  rewrite Ey, V2 in V1.
  apply zero_padded_inj in Em;
    [| change (10 ^ Z.of_nat 2) with 100; lia ..].
  apply zero_padded_inj in Ed;
    [| change (10 ^ Z.of_nat 2) with 100; lia ..].
  destruct d1, d2. simpl in *. congruence.
Qed.

Lemma format_date_for_display_injective_witness :
  valid_date (Date 999 12 31)
  /\ DateUtils.format_date_for_display (Some (Date 999 12 31))
     = "999-12-31 (Tue)"
  /\ Date 999 12 31 = Date 999 12 31.
Proof.
  assert (V : valid_date (Date 999 12 31)).
  { unfold valid_date. cbn [year month day].
    change (days_in_month 999 12) with 31. lia. }
  split; [exact V | split; [vm_compute; reflexivity |]].
  apply (format_date_for_display_injective (Date 999 12 31)
           (Date 999 12 31) V V).
  reflexivity.
Defined.

(* ===================================================================== *)
(** * Further properties of the session lifecycle *)
(* ===================================================================== *)

(** X6.  Date text that is given and does not parse makes both
    [start_reading_session] and [end_reading_session] raise [ValueError]
    with the text in the message, before the database is touched. *)
Theorem unparseable_date_raises_value_error
        (parse_date : string -> result datetime) (today : date)
        (now book_id : Z) (s : string) (session_notes : option string)
        (completed : bool) (db : Store) :
  truthy s = true ->
  DateUtils.parse_date_input parse_date s = Ok None ->
  Manager.start_reading_session parse_date today now book_id (Some s) db
  = (Raise (ValueError ("Could not parse date: " ++ s)%string), db)
  /\ Manager.end_reading_session parse_date today now book_id (Some s)
       session_notes completed db
     = (Raise (ValueError ("Could not parse date: " ++ s)%string), db).
Proof.
  intros Ht Hp.
  unfold Manager.start_reading_session, Manager.end_reading_session,
    Manager.date_or_today.
  rewrite Ht, Hp. split; reflexivity.
Qed.

Lemma unparseable_date_raises_value_error_witness :
  Manager.start_reading_session Sample.parse_date Sample.today 200 1
    (Some "not a date") Sample.library
  = (Raise (ValueError "Could not parse date: not a date"), Sample.library)
  /\ Manager.end_reading_session Sample.parse_date Sample.today 200 1
       (Some "not a date") None true Sample.library
     = (Raise (ValueError "Could not parse date: not a date"),
        Sample.library).
Proof.
  apply (unparseable_date_raises_value_error Sample.parse_date Sample.today
           200 1 "not a date" None true Sample.library); reflexivity.
Defined.

(** X7.  Without date text (no argument, or the empty string) a session
    for a book id the database can hold starts today. *)
Theorem start_session_defaults_to_today
        (parse_date : string -> result datetime) (today : date)
        (now book_id : Z) (start_date_str : option string) (db : Store) :
  Manager.sqlite_int book_id = true ->
  start_date_str = None \/ start_date_str = Some "" ->
  exists new_session db',
    Manager.start_reading_session parse_date today now book_id
      start_date_str db = (Ok new_session, db')
    /\ ReadingSession.start_date new_session = today
    /\ ReadingSession.end_date new_session = None
    /\ ReadingSession.session_notes new_session = None
    /\ ReadingSession.created_date new_session = now.
Proof.
  intros _ [-> | ->]; unfold Manager.start_reading_session; simpl;
    eexists; eexists; repeat split.
Qed.

Lemma start_session_defaults_to_today_witness :
  exists new_session db',
    Manager.start_reading_session Sample.parse_date Sample.today 200 2
      (Some "") Sample.library = (Ok new_session, db')
    /\ ReadingSession.start_date new_session = Sample.today
    /\ ReadingSession.end_date new_session = None
    /\ ReadingSession.session_notes new_session = None
    /\ ReadingSession.created_date new_session = 200.
Proof.
  apply (start_session_defaults_to_today Sample.parse_date Sample.today
           200 2 (Some "") Sample.library).
  - reflexivity.
  - right. reflexivity.
Defined.

Lemma filter_singleton {A : Type} (p : A -> bool) (t : list A) (x : A) :
  (List.length (filter p t) <= 1)%nat -> In x t -> p x = true ->
  filter p t = [x].
Proof.
  intros Hlen Hin Hp.
  assert (Hx : In x (filter p t)) by (apply filter_In; auto).
  destruct (filter p t) as [| a [| b l]]; simpl in *.
  - contradiction.
  - destruct Hx as [-> | []]. reflexivity.
  - lia.
Qed.

(** X8.  In a library built by the manager's operations, starting a
    session for a book id the database can hold, with a date that
    resolves, leaves the book with exactly one open session: the new
    one. *)
Theorem start_session_leaves_one_open
        (parse_date : string -> result datetime)
        (ops : list Manager.operation) (today : date) (now book_id : Z)
        (start_date_str : option string) (start_date : date) :
  Manager.sqlite_int book_id = true ->
  let db := Manager.run parse_date ops empty_store in
  Manager.date_or_today parse_date today start_date_str = Ok start_date ->
  exists new_session db',
    Manager.start_reading_session parse_date today now book_id
      start_date_str db = (Ok new_session, db')
    /\ Manager.open_sessions book_id db' = [new_session]
    /\ ReadingSession.start_date new_session = start_date.
Proof.
  intros _ db Hd.
  pose proof (start_keeps_one_open parse_date today now book_id
                start_date_str db
                (run_keeps_one_open parse_date ops empty_store
                   (fun b => Nat.le_0_l 1)) book_id) as Hone.
  unfold Manager.start_reading_session in *. rewrite Hd in *.
  eexists. eexists. split; [reflexivity |]. split; [| reflexivity].
  cbn [snd] in Hone. unfold Manager.open_sessions in *.
  apply filter_singleton; [exact Hone | |].
  - cbn [reading_sessions]. apply in_or_app. right. left. reflexivity.
  - rewrite open_for_other_book. apply Z.eqb_refl.
Qed.

Lemma start_session_leaves_one_open_witness :
  exists new_session db',
    Manager.start_reading_session Sample.parse_date Sample.today 200 1
      None
      (Manager.run Sample.parse_date
         [Manager.AddBook 100 "Dune" "Frank Herbert" PHYSICAL None None
            None None;
          Manager.StartSession Sample.today 110 1 (Some "2023-12-25")]
         empty_store)
    = (Ok new_session, db')
    /\ Manager.open_sessions 1 db' = [new_session]
    /\ ReadingSession.start_date new_session = Sample.today.
Proof.
  apply (start_session_leaves_one_open Sample.parse_date
           [Manager.AddBook 100 "Dune" "Frank Herbert" PHYSICAL None None
              None None;
            Manager.StartSession Sample.today 110 1 (Some "2023-12-25")]
           Sample.today 200 1 None Sample.today); reflexivity.
Defined.

(** X9.  Ending the open session of a book writes the end date on that row,
    replaces its notes only when non-empty notes are given, adds no row,
    and, when the book had at most one open session, leaves it with
    none. *)
Theorem end_session_closes_open
        (parse_date : string -> result datetime) (today : date)
        (now book_id : Z) (end_date_str session_notes : option string)
        (completed : bool) (end_date : date)
        (current : ReadingSession.t) (db : Store) :
  Table.first (Manager.is_open_for book_id) (reading_sessions db)
  = Some current ->
  Manager.date_or_today parse_date today end_date_str = Ok end_date ->
  (List.length (Manager.open_sessions book_id db) <= 1)%nat ->
  let ended :=
    ReadingSession.Make (ReadingSession.id current) book_id
      (ReadingSession.start_date current) (Some end_date)
      (if truthy_opt session_notes then session_notes
       else ReadingSession.session_notes current)
      (ReadingSession.created_date current) in
  exists db',
    Manager.end_reading_session parse_date today now book_id end_date_str
      session_notes completed db = (Ok tt, db')
    /\ reading_sessions db'
       = Table.update ReadingSession.id ended (reading_sessions db)
    /\ Table.first
         (fun x => ReadingSession.id x =? ReadingSession.id current)
         (reading_sessions db') = Some ended
    /\ List.length (reading_sessions db')
       = List.length (reading_sessions db)
    /\ Manager.open_sessions book_id db' = []
    /\ notes db' = notes db.
Proof.
  intros Hf Hd Hone ended.
  pose proof (open_found _ _ _ Hf) as (Hin & Hbook & Hend).
  unfold Manager.end_reading_session. rewrite Hd, Hf.
  assert (Hended :
            (if truthy_opt session_notes
             then ReadingSession.set_session_notes session_notes
                    (ReadingSession.set_end_date end_date current)
             else ReadingSession.set_end_date end_date current) = ended).
  { unfold ended, ReadingSession.set_session_notes,
      ReadingSession.set_end_date.
    rewrite <- Hbook. destruct (truthy_opt session_notes); reflexivity. }
  rewrite Hended.
  eexists. split; [reflexivity |]. cbn [reading_sessions notes].
  split; [reflexivity |].
  assert (Hclosed : Manager.is_open_for book_id ended = false).
  { unfold Manager.is_open_for, ended. simpl. apply andb_false_r. }
  split; [| split; [apply update_length | split; [| reflexivity]]].
  - rewrite (first_by_id_update ReadingSession.id).
    destruct (Table.first
                (fun x => ReadingSession.id x =? ReadingSession.id current)
                (reading_sessions db)) as [x |] eqn:K.
    + apply find_some in K as [_ K]. apply Z.eqb_eq in K.
      cbn [ended ReadingSession.id]. rewrite K, Z.eqb_refl. reflexivity.
    + exfalso. apply (find_none _ _ K current) in Hin.
      rewrite Z.eqb_refl in Hin. discriminate.
  - unfold Manager.open_sessions in *. cbn [reading_sessions].
    pose proof (close_open_lt book_id ended current _ Hf eq_refl Hclosed).
    destruct (filter (Manager.is_open_for book_id)
                (Table.update ReadingSession.id ended (reading_sessions db)));
      [reflexivity | simpl in *; lia].
Qed.

Lemma end_session_closes_open_witness :
  exists db',
    Manager.end_reading_session Sample.parse_date Sample.today 200 1
      (Some "2024-01-10") (Some "finished") false Sample.library
    = (Ok tt, db')
    /\ reading_sessions db'
       = [Sample.dune_first;
          ReadingSession.Make 2 1 (Date 2023 12 25) (Some (Date 2024 1 10))
            (Some "finished") 120]
    /\ Manager.open_sessions 1 db' = [].
Proof.
  destruct (end_session_closes_open Sample.parse_date Sample.today 200 1
              (Some "2024-01-10") (Some "finished") false (Date 2024 1 10)
              Sample.dune_open Sample.library)
    as (db' & Hrun & Hrows & _ & _ & Hopen & _).
  - reflexivity.
  - reflexivity.
  - simpl. lia.
  - exists db'. repeat split; assumption.
Defined.

(** X10.  Sessions that have an end date are history: starting or ending a
    session changes none of them (the table's keys being unique). *)
Theorem closed_sessions_are_kept
        (parse_date : string -> result datetime) (today : date)
        (now book_id : Z) (date_str session_notes : option string)
        (completed : bool) (db : Store) (x : ReadingSession.t) :
  Table.unique ReadingSession.id (reading_sessions db) ->
  In x (reading_sessions db) ->
  ReadingSession.end_date x <> None ->
  In x (reading_sessions
          (snd (Manager.start_reading_session parse_date today now book_id
                  date_str db)))
  /\ In x (reading_sessions
             (snd (Manager.end_reading_session parse_date today now
                     book_id date_str session_notes completed db))).
Proof.
  intros Hu Hin Hclosed.
  assert (Hkeep : forall current r,
             Table.first (Manager.is_open_for book_id) (reading_sessions db)
             = Some current ->
             ReadingSession.id r = ReadingSession.id current ->
             In x (Table.update ReadingSession.id r (reading_sessions db))).
  { intros current r Hf Hr.
    pose proof (open_found _ _ _ Hf) as (Hc & _ & Hopen).
    apply update_other_rows; [exact Hin |].
    intros E. rewrite Hr in E.
    pose proof (unique_same_key ReadingSession.id _ x current Hu Hin Hc E).
    subst x. contradiction. }
  unfold Manager.start_reading_session, Manager.end_reading_session.
  destruct (Manager.date_or_today parse_date today date_str) as [d | e];
    [| split; exact Hin].
  destruct (Table.first (Manager.is_open_for book_id) (reading_sessions db))
    as [current |] eqn:Hf; cbn [snd reading_sessions].
  - split.
    + apply in_or_app. left. apply (Hkeep current); reflexivity.
    + apply (Hkeep current); [reflexivity |].
      destruct (truthy_opt session_notes); reflexivity.
  - split; [apply in_or_app; left |]; exact Hin.
Qed.

Lemma closed_sessions_are_kept_witness :
  In Sample.dune_first
     (reading_sessions
        (snd (Manager.start_reading_session Sample.parse_date Sample.today
                200 1 None Sample.library)))
  /\ In Sample.dune_first
        (reading_sessions
           (snd (Manager.end_reading_session Sample.parse_date Sample.today
                   200 1 None None true Sample.library))).
Proof.
  apply (closed_sessions_are_kept Sample.parse_date Sample.today 200 1 None
           None true Sample.library Sample.dune_first).
  - unfold Table.unique. simpl.
    repeat constructor; simpl; intuition discriminate.
  - left. reflexivity.
  - discriminate.
Defined.

(* ===================================================================== *)
(** * Integrity of the stored tables *)
(* ===================================================================== *)

Section StoreInvariants.

Variable parse_date : string -> result datetime.

Lemma assign_status_unique (now book_id : Z) (st : ReadingStatus)
      (t : list Book.t) :
  Table.unique Book.id t ->
  Table.unique Book.id (Manager.assign_status now book_id st t).
Proof.
  intros Hu. unfold Manager.assign_status.
  destruct (Table.first (Manager.has_id book_id) t);
    [apply unique_update |]; exact Hu.
Qed.

Lemma apply_keeps_keys (op : Manager.operation) (db : Store) :
  Manager.well_keyed db -> Manager.well_keyed (Manager.apply parse_date op db).
Proof.
  unfold Manager.well_keyed. intros (Hb & Hs & Hn). destruct op; cbn [Manager.apply].
  - unfold Manager.add_book.
    destruct (Manager.isbn_taken isbn (books db)); cbn [snd].
    + repeat split; assumption.
    + repeat split; cbn [books reading_sessions notes]; try assumption.
      apply unique_insert; [exact Hb | reflexivity].
  - unfold Manager.start_reading_session.
    destruct (Manager.date_or_today parse_date today start_date_str);
      cbn [snd]; [| repeat split; assumption].
    repeat split; cbn [books reading_sessions notes]; try assumption.
    + apply assign_status_unique, Hb.
    + unfold Table.unique. rewrite map_app.
      assert (Hids : map ReadingSession.id
                       match Table.first (Manager.is_open_for book_id)
                               (reading_sessions db) with
                       | Some current_session =>
                           Table.update ReadingSession.id
                             (ReadingSession.set_end_date a current_session)
                             (reading_sessions db)
                       | None => reading_sessions db
                       end
                     = map ReadingSession.id (reading_sessions db)).
      { destruct (Table.first _ (reading_sessions db));
          [apply update_keeps_ids | reflexivity]. }
      rewrite Hids. rewrite <- map_app.
      apply (unique_insert ReadingSession.id); [exact Hs | reflexivity].
  - unfold Manager.end_reading_session.
    destruct (Manager.date_or_today parse_date today end_date_str);
      cbn [snd]; [| repeat split; assumption].
    destruct (Table.first (Manager.is_open_for book_id)
                (reading_sessions db)); cbn [snd];
      [| repeat split; assumption].
    repeat split; cbn [books reading_sessions notes]; try assumption.
    + destruct completed; [apply assign_status_unique |]; exact Hb.
    + apply unique_update, Hs.
  - cbn [Manager.update_book_status snd].
    repeat split; cbn [books reading_sessions notes]; try assumption.
    apply assign_status_unique, Hb.
  - cbn [Manager.add_note snd].
    repeat split; cbn [books reading_sessions notes]; try assumption.
    apply unique_insert; [exact Hn | reflexivity].
  - unfold Manager.delete_note.
    destruct (Table.first _ (notes db)); cbn [snd];
      [| repeat split; assumption].
    repeat split; cbn [books reading_sessions notes]; try assumption.
    apply unique_filter, Hn.
  - unfold Manager.delete_book.
    destruct (Table.first _ (books db)); cbn [snd];
      [| repeat split; assumption].
    repeat split; cbn [books reading_sessions notes];
      apply unique_filter; assumption.
Qed.

Lemma run_keeps_keys (ops : list Manager.operation) :
  forall db, Manager.well_keyed db -> Manager.well_keyed (Manager.run parse_date ops db).
Proof.
  induction ops as [| op ops IH]; intros db H.
  - exact H.
  - cbn [Manager.run fold_left]. apply IH, apply_keeps_keys, H.
Qed.

Lemma empty_store_keys : Manager.well_keyed empty_store.
Proof. repeat split; constructor. Qed.

Lemma set_status_isbn (now : Z) (st : ReadingStatus) (b : Book.t) :
  Book.isbn (Book.set_status now st b) = Book.isbn b.
Proof.
  unfold Book.set_status.
  destruct (ReadingStatus_eqb (Book.status b) st); reflexivity.
Qed.

Lemma assign_status_isbns (now book_id : Z) (st : ReadingStatus)
      (i : string) (t : list Book.t) :
  Table.unique Book.id t ->
  List.length (Manager.with_isbn i (Manager.assign_status now book_id st t))
  = List.length (Manager.with_isbn i t).
Proof.
  intros Hu. unfold Manager.assign_status.
  destruct (Table.first (Manager.has_id book_id) t) as [book |] eqn:E;
    [| reflexivity].
  pose proof (has_id_found _ _ _ E) as [Hin _].
  unfold Manager.with_isbn.
  apply (filter_update_same Book.id _ _ book); auto.
  - apply set_status_id.
  - rewrite set_status_isbn. reflexivity.
Qed.

Lemma apply_keeps_isbns (op : Manager.operation) (db : Store) :
  Table.unique Book.id (books db) ->
  (forall i, (List.length (Manager.with_isbn i (books db)) <= 1)%nat) ->
  forall i,
    (List.length (Manager.with_isbn i (books (Manager.apply parse_date op db)))
     <= 1)%nat.
Proof.
  intros Hu Inv i. destruct op; cbn [Manager.apply].
  - unfold Manager.add_book.
    destruct (Manager.isbn_taken isbn (books db)) eqn:T; cbn [snd books];
      [apply Inv |].
    unfold Manager.with_isbn. rewrite filter_app, length_app. cbn [filter Book.isbn].
    destruct (Manager.opt_string_eqb isbn (Some i)) eqn:E;
      cbn [List.length]; [| specialize (Inv i); unfold Manager.with_isbn in Inv; lia].
    destruct isbn as [j |]; [| discriminate].
    apply String.eqb_eq in E. subst j.
    assert (Hnone : filter
                      (fun b => Manager.opt_string_eqb (Book.isbn b) (Some i))
                      (books db) = []).
    { apply filter_none. unfold Manager.isbn_taken in T.
      destruct (find _ (books db)) as [b |] eqn:F; [| reflexivity].
      apply find_some in F as [Hin Hb].
      assert (existsb
                (fun b => Manager.opt_string_eqb (Book.isbn b) (Some i))
                (books db) = true)
        by (apply existsb_exists; exists b; auto).
      congruence. }
    rewrite Hnone. simpl. lia.
  - unfold Manager.start_reading_session.
    destruct (Manager.date_or_today parse_date today start_date_str);
      cbn [snd books]; [| apply Inv].
    rewrite assign_status_isbns by exact Hu. apply Inv.
  - unfold Manager.end_reading_session.
    destruct (Manager.date_or_today parse_date today end_date_str);
      cbn [snd books]; [| apply Inv].
    destruct (Table.first _ (reading_sessions db)); cbn [snd books];
      [| apply Inv].
    destruct completed; [rewrite assign_status_isbns by exact Hu |];
      apply Inv.
  - cbn [Manager.update_book_status snd books].
    rewrite assign_status_isbns by exact Hu. apply Inv.
  - apply Inv.
  - unfold Manager.delete_note.
    destruct (Table.first _ (notes db)); apply Inv.
  - unfold Manager.delete_book.
    destruct (Table.first _ (books db)); cbn [snd books]; [| apply Inv].
    unfold Manager.with_isbn, Table.delete. rewrite filter_filter.
    etransitivity; [apply filter_and_le | apply Inv].
Qed.

Lemma run_keeps_isbns (ops : list Manager.operation) :
  forall db,
    Manager.well_keyed db ->
    (forall i, (List.length (Manager.with_isbn i (books db)) <= 1)%nat) ->
    forall i,
      (List.length (Manager.with_isbn i (books (Manager.run parse_date ops db)))
       <= 1)%nat.
Proof.
  induction ops as [| op ops IH]; intros db Hk Inv.
  - exact Inv.
  - cbn [Manager.run fold_left]. apply IH.
    + apply apply_keeps_keys, Hk.
    + apply apply_keeps_isbns; [apply Hk | exact Inv].
Qed.

(** X11.  In a library built by the manager's operations every table has
    unique primary keys. *)
Theorem primary_keys_stay_unique (ops : list Manager.operation) :
  let db := Manager.run parse_date ops empty_store in
  Table.unique Book.id (books db)
  /\ Table.unique ReadingSession.id (reading_sessions db)
  /\ Table.unique Note.id (notes db).
Proof. apply (run_keeps_keys ops empty_store), empty_store_keys. Qed.

(** X12.  In a library built by the manager's operations no two books carry
    the same ISBN: two stored rows with one ISBN are the same row. *)
Theorem isbn_stays_unique (ops : list Manager.operation)
        (b1 b2 : Book.t) (i : string) :
  let db := Manager.run parse_date ops empty_store in
  In b1 (books db) -> In b2 (books db) ->
  Book.isbn b1 = Some i -> Book.isbn b2 = Some i ->
  b1 = b2.
Proof.
  intros db H1 H2 E1 E2.
  pose proof (run_keeps_isbns ops empty_store empty_store_keys
                (fun _ => Nat.le_0_l 1) i) as Hone.
  fold db in Hone.
  assert (Hin : forall b, In b (books db) -> Book.isbn b = Some i ->
                          In b (Manager.with_isbn i (books db))).
  { intros b Hb Eb. apply filter_In. split; [exact Hb |].
    rewrite Eb. simpl. apply String.eqb_refl. }
  pose proof (Hin b1 H1 E1) as I1. pose proof (Hin b2 H2 E2) as I2.
  destruct (Manager.with_isbn i (books db)) as [| a [| c l]]; simpl in *.
  - contradiction.
  - destruct I1 as [<- | []], I2 as [<- | []]. reflexivity.
  - lia.
Qed.

End StoreInvariants.

Lemma isbn_stays_unique_witness :
  Sample.dune = Sample.dune.
Proof.
  apply (isbn_stays_unique Sample.parse_date
           [Manager.AddBook 100 "Dune" "Frank Herbert" PHYSICAL
              (Some "9780441172719") None (Some 1965) (Some 412);
            Manager.StartSession Sample.today 100 1 None]
           Sample.dune Sample.dune "9780441172719");
    try reflexivity; left; reflexivity.
Defined.

(* ===================================================================== *)
(** * Ordered queries *)
(* ===================================================================== *)

Section Ordering.

Context {A : Type}.
Variable leb : A -> A -> bool.
Hypothesis leb_total : forall a b, leb a b = true \/ leb b a = true.

Lemma insert_asc_perm (x : A) (l : list A) :
  Permutation (x :: l) (Table.insert_asc leb x l).
Proof.
  induction l as [| y l IH]; simpl.
  - apply Permutation_refl.
  - destruct (leb x y).
    + apply Permutation_refl.
    + eapply perm_trans; [apply perm_swap |]. apply perm_skip, IH.
Qed.

Lemma order_by_perm (l : list A) : Permutation l (Table.order_by leb l).
Proof.
  induction l as [| x l IH]; simpl.
  - constructor.
  - eapply perm_trans; [apply perm_skip, IH | apply insert_asc_perm].
Qed.

Lemma insert_asc_hd (x a : A) (l : list A) :
  leb a x = true ->
  HdRel (fun u v => leb u v = true) a l ->
  HdRel (fun u v => leb u v = true) a (Table.insert_asc leb x l).
Proof.
  intros Hax Hl. destruct l as [| y l]; simpl.
  - constructor. exact Hax.
  - destruct (leb x y); constructor; [exact Hax |].
    inversion Hl; assumption.
Qed.

Lemma insert_asc_sorted (x : A) (l : list A) :
  Sorted (fun u v => leb u v = true) l ->
  Sorted (fun u v => leb u v = true) (Table.insert_asc leb x l).
Proof.
  induction l as [| y l IH]; simpl; intros Hs.
  - repeat constructor.
  - destruct (leb x y) eqn:E.
    + constructor; [exact Hs | constructor; exact E].
    + inversion Hs as [| ? ? Hl Hhd]; subst.
      constructor; [apply IH, Hl |].
      apply insert_asc_hd; [| exact Hhd].
      destruct (leb_total x y); congruence.
Qed.

Lemma order_by_sorted (l : list A) :
  Sorted (fun u v => leb u v = true) (Table.order_by leb l).
Proof.
  induction l as [| x l IH]; simpl.
  - constructor.
  - apply insert_asc_sorted, IH.
Qed.

Lemma insert_desc_perm (x : A) (l : list A) :
  Permutation (x :: l) (Table.insert_desc leb x l).
Proof.
  induction l as [| y l IH]; simpl.
  - apply Permutation_refl.
  - destruct (leb y x).
    + apply Permutation_refl.
    + eapply perm_trans; [apply perm_swap |]. apply perm_skip, IH.
Qed.

Lemma order_by_desc_perm (l : list A) :
  Permutation l (Table.order_by_desc leb l).
Proof.
  induction l as [| x l IH]; simpl.
  - constructor.
  - eapply perm_trans; [apply perm_skip, IH | apply insert_desc_perm].
Qed.

Lemma insert_desc_hd (x a : A) (l : list A) :
  leb x a = true ->
  HdRel (fun u v => leb v u = true) a l ->
  HdRel (fun u v => leb v u = true) a (Table.insert_desc leb x l).
Proof.
  intros Hax Hl. destruct l as [| y l]; simpl.
  - constructor. exact Hax.
  - destruct (leb y x); constructor; [exact Hax |].
    inversion Hl; assumption.
Qed.

Lemma insert_desc_sorted (x : A) (l : list A) :
  Sorted (fun u v => leb v u = true) l ->
  Sorted (fun u v => leb v u = true) (Table.insert_desc leb x l).
Proof.
  induction l as [| y l IH]; simpl; intros Hs.
  - repeat constructor.
  - destruct (leb y x) eqn:E.
    + constructor; [exact Hs | constructor; exact E].
    + inversion Hs as [| ? ? Hl Hhd]; subst.
      constructor; [apply IH, Hl |].
      apply insert_desc_hd; [| exact Hhd].
      destruct (leb_total x y); congruence.
Qed.

Lemma order_by_desc_sorted (l : list A) :
  Sorted (fun u v => leb v u = true) (Table.order_by_desc leb l).
Proof.
  induction l as [| x l IH]; simpl.
  - constructor.
  - apply insert_desc_sorted, IH.
Qed.

End Ordering.

Lemma date_leb_total (a b : date) :
  date_leb a b = true \/ date_leb b a = true.
Proof.
  unfold date_leb.
  destruct (Z.ltb_spec (year a) (year b)); [left; reflexivity |].
  destruct (Z.ltb_spec (year b) (year a)); [right; reflexivity |].
  assert (E : year a = year b) by lia.
  rewrite E, Z.eqb_refl. cbn [orb andb].
  destruct (Z.ltb_spec (month a) (month b)); [left; reflexivity |].
  destruct (Z.ltb_spec (month b) (month a)); [right; reflexivity |].
  assert (E' : month a = month b) by lia.
  rewrite E', Z.eqb_refl. cbn [orb andb].
  destruct (Z.leb_spec (day a) (day b)); [left; reflexivity |].
  right. apply Z.leb_le. lia.
Qed.

(** X13.  [get_reading_sessions] returns exactly the sessions of the book,
    each once, the most recent start date first. *)
Theorem get_reading_sessions_sorted (book_id : Z) (db : Store) :
  Permutation (Manager.sessions_of book_id db)
              (Manager.get_reading_sessions book_id db)
  /\ Sorted (fun earlier later =>
               date_leb (ReadingSession.start_date later)
                        (ReadingSession.start_date earlier) = true)
            (Manager.get_reading_sessions book_id db)
  /\ (forall s, In s (Manager.get_reading_sessions book_id db)
                <-> In s (reading_sessions db)
                    /\ ReadingSession.book_id s = book_id).
Proof.
  unfold Manager.get_reading_sessions, Manager.sessions_of.
  split; [apply order_by_desc_perm |].
  split.
  - apply (order_by_desc_sorted
             (fun a b => date_leb (ReadingSession.start_date a)
                                  (ReadingSession.start_date b))).
    intros a b. apply date_leb_total.
  - intros s. split.
    + intros H.
      apply (Permutation_in _ (Permutation_sym (order_by_desc_perm _ _)))
        in H.
      apply filter_In in H as [Hin Hb]. split; [exact Hin |].
      apply Z.eqb_eq, Hb.
    + intros [Hin Hb].
      apply (Permutation_in _ (order_by_desc_perm _ _)).
      apply filter_In. split; [exact Hin | apply Z.eqb_eq, Hb].
Qed.

(** X14.  [get_notes_for_book] returns exactly the notes of the book, each
    once, the most recently created first. *)
Theorem get_notes_for_book_sorted (book_id : Z) (db : Store) :
  Permutation (Manager.notes_of book_id db)
              (Manager.get_notes_for_book book_id db)
  /\ Sorted (fun earlier later =>
               Note.created_date later <= Note.created_date earlier)
            (Manager.get_notes_for_book book_id db).
Proof.
  unfold Manager.get_notes_for_book, Manager.notes_of.
  split; [apply order_by_desc_perm |].
  pose proof (order_by_desc_sorted
                (fun a b => Note.created_date a <=? Note.created_date b))
    as H.
  eapply Sorted_ind with (P := fun l => Sorted _ l);
    [constructor | | apply H].
  - intros a l _ IH Hhd. constructor; [exact IH |].
    destruct Hhd; constructor. apply Z.leb_le. assumption.
  - intros a b.
    destruct (Z.leb_spec (Note.created_date a) (Note.created_date b));
      [left; reflexivity | right; apply Z.leb_le; lia].
Qed.

(** X15.  [get_all_books] returns every stored book once, ordered by title. *)
Theorem get_all_books_sorted (db : Store) :
  Permutation (books db) (Manager.get_all_books db)
  /\ Sorted (fun a b => String.leb (Book.title a) (Book.title b) = true)
            (Manager.get_all_books db).
Proof.
  unfold Manager.get_all_books. split; [apply order_by_perm |].
  apply (order_by_sorted
           (fun a b => String.leb (Book.title a) (Book.title b))).
  intros a b. apply String.leb_total.
Qed.

(** X16.  [get_unique_authors] returns each author of a stored book exactly
    once, in ascending order, and nothing else. *)
Theorem get_unique_authors_distinct_sorted (db : Store) :
  NoDup (Manager.get_unique_authors db)
  /\ Sorted (fun a b => String.leb a b = true)
            (Manager.get_unique_authors db)
  /\ (forall author,
        In author (Manager.get_unique_authors db)
        <-> exists book, In book (books db) /\ Book.author book = author).
Proof.
  unfold Manager.get_unique_authors.
  pose proof (order_by_perm String.leb
                (nodup string_dec (map Book.author (books db)))) as Hp.
  split; [| split].
  - apply (Permutation_NoDup Hp), NoDup_nodup.
  - apply order_by_sorted, String.leb_total.
  - intros author. split.
    + intros H. apply (Permutation_in _ (Permutation_sym Hp)) in H.
      apply nodup_In, in_map_iff in H. destruct H as (b & Hb & Hin).
      exists b. split; assumption.
    + intros (b & Hin & Hb). apply (Permutation_in _ Hp).
      apply nodup_In, in_map_iff. exists b. split; assumption.
Qed.

(* ===================================================================== *)
(** * Books and notes: insert, look up, update, delete *)
(* ===================================================================== *)

Lemma isbn_taken_none (t : list Book.t) : Manager.isbn_taken None t = false.
Proof.
  unfold Manager.isbn_taken. induction t as [| b t IH]; simpl.
  - reflexivity.
  - rewrite IH. destruct (Book.isbn b); reflexivity.
Qed.

Lemma first_fresh_key {A : Type} (pk : A -> Z) (t : list A) (x : A) :
  pk x = Table.next_id pk t ->
  Table.first (fun y => pk y =? pk x) (t ++ [x]) = Some x.
Proof.
  intros Hx. unfold Table.first. rewrite find_app_none.
  - simpl. rewrite Z.eqb_refl. reflexivity.
  - destruct (find (fun y => pk y =? pk x) t) as [y |] eqn:F;
      [| reflexivity].
    apply find_some in F as [Hin Hy]. apply Z.eqb_eq in Hy.
    pose proof (next_id_fresh pk t y Hin). lia.
Qed.

(** X17.  Adding a book without ISBN, or with an ISBN no stored book
    has (and a year and a page count, if given, that the database can
    hold), succeeds: the book gets a key above all stored keys, status
    TO_READ and both timestamps set to the time of the call, can be read
    back by its key, and every book stored before is read back as
    before. *)
Theorem add_book_then_get
        (now : Z) (title author : string) (book_type : BookType)
        (isbn publisher : option string) (publication_year pages : option Z)
        (db : Store) :
  Manager.sqlite_int_opt publication_year = true ->
  Manager.sqlite_int_opt pages = true ->
  (forall b i, In b (books db) -> isbn = Some i -> Book.isbn b <> Some i) ->
  let book :=
    Book.Make (Table.next_id Book.id (books db)) title author isbn
      publisher publication_year pages book_type TO_READ now now in
  exists db',
    Manager.add_book now title author book_type isbn publisher
      publication_year pages db = (Ok book, db')
    /\ books db' = books db ++ [book]
    /\ Manager.get_book_by_id (Book.id book) db' = Some book
    /\ (forall b, In b (books db) -> Book.id b < Book.id book)
    /\ (forall k b, Manager.get_book_by_id k db = Some b ->
                    Manager.get_book_by_id k db' = Some b)
    /\ reading_sessions db' = reading_sessions db
    /\ notes db' = notes db.
Proof.
  intros _ _ Hnew book.
  assert (Hfree : Manager.isbn_taken isbn (books db) = false).
  { destruct isbn as [i |]; [| apply isbn_taken_none].
    destruct (Manager.isbn_taken (Some i) (books db)) eqn:T;
      [| reflexivity].
    apply isbn_taken_iff in T as (b & Hb & Hi).
    exfalso. apply (Hnew b i Hb eq_refl Hi). }
  unfold Manager.add_book. rewrite Hfree. fold book.
  eexists. split; [reflexivity |].
  cbn [books reading_sessions notes]. split; [reflexivity |].
  split; [| split; [| split; [| split; reflexivity]]].
  - unfold Manager.get_book_by_id, Manager.has_id. cbn [books].
    apply (first_fresh_key Book.id). reflexivity.
  - intros b Hb. apply (next_id_fresh Book.id _ _ Hb).
  - intros k b Hk. unfold Manager.get_book_by_id in *. cbn [books].
    apply find_app_l, Hk.
Qed.

Lemma add_book_then_get_witness :
  exists db',
    Manager.add_book 300 "Persuasion" "Jane Austen" EBOOK
      (Some "9780141439686") None (Some 1817) None Sample.library
    = (Ok (Book.Make 3 "Persuasion" "Jane Austen" (Some "9780141439686")
             None (Some 1817) None EBOOK TO_READ 300 300), db')
    /\ Manager.get_book_by_id 3 db'
       = Some (Book.Make 3 "Persuasion" "Jane Austen"
                 (Some "9780141439686") None (Some 1817) None EBOOK
                 TO_READ 300 300)
    /\ Manager.get_book_by_id 1 db' = Some Sample.dune.
Proof.
  destruct (add_book_then_get 300 "Persuasion" "Jane Austen" EBOOK
              (Some "9780141439686") None (Some 1817) None Sample.library)
    as (db' & Hrun & _ & Hget & _ & Hold & _).
  - reflexivity.
  - reflexivity.
  - simpl. intros b i [<- | [<- | []]] E; inversion E; subst; discriminate.
  - exists db'. split; [exact Hrun | split; [exact Hget |]].
    apply Hold. reflexivity.
Defined.

(** X18.  [update_book_status] on a book id the database can hold
    overwrites the status of the stored book with that id, whatever its
    sessions are: the row keeps every other field apart from the
    last-modified time when the status changed, the sessions (an open
    session stays open under a COMPLETED status) and the notes are
    untouched, every other book is kept, and an id that no book has
    changes nothing. *)
Theorem update_book_status_overwrites
        (now book_id : Z) (status : ReadingStatus) (db : Store) :
  Manager.sqlite_int book_id = true ->
  Table.unique Book.id (books db) ->
  exists db',
    Manager.update_book_status now book_id status db = (Ok tt, db')
    /\ reading_sessions db' = reading_sessions db
    /\ notes db' = notes db
    /\ List.length (books db') = List.length (books db)
    /\ (forall book, In book (books db) -> Book.id book = book_id ->
          Manager.get_book_by_id book_id db'
          = Some (Book.Make (Book.id book) (Book.title book)
                    (Book.author book) (Book.isbn book)
                    (Book.publisher book) (Book.publication_year book)
                    (Book.pages book) (Book.book_type book) status
                    (Book.added_date book)
                    (if ReadingStatus_eqb (Book.status book) status
                     then Book.last_modified book else now)))
    /\ ((forall b, In b (books db) -> Book.id b <> book_id) -> db' = db)
    /\ (forall b, In b (books db) -> Book.id b <> book_id ->
                  In b (books db')).
Proof.
  intros _ Hu. unfold Manager.update_book_status.
  eexists. split; [reflexivity |].
  cbn [books reading_sessions notes].
  split; [reflexivity | split; [reflexivity |]].
  split; [| split; [| split]].
  - unfold Manager.assign_status.
    destruct (Table.first (Manager.has_id book_id) (books db));
      [apply update_length | reflexivity].
  - intros book Hin Hid. subst book_id.
    unfold Manager.get_book_by_id. cbn [books].
    rewrite get_after_assign_status.
    rewrite (get_stored_book _ (books db) book Hu Hin eq_refl).
    rewrite Z.eqb_refl. cbn [andb]. rewrite set_status_row.
    reflexivity.
  - intros Habsent. unfold Manager.assign_status.
    rewrite (absent_book_not_found book_id (books db) Habsent).
    destruct db. reflexivity.
  - intros b Hb Hne. unfold Manager.assign_status.
    destruct (Table.first (Manager.has_id book_id) (books db))
      as [book |] eqn:F; [| exact Hb].
    pose proof (has_id_found _ _ _ F) as [_ Hid].
    apply update_other_rows; [exact Hb |].
    rewrite set_status_id, Hid. exact Hne.
Qed.

Lemma update_book_status_overwrites_witness :
  exists db',
    Manager.update_book_status 180 1 COMPLETED Sample.library = (Ok tt, db')
    /\ Manager.get_book_by_id 1 db' = Some Sample.dune_done
    /\ Manager.open_sessions 1 db' = [Sample.dune_open].
Proof.
  destruct (update_book_status_overwrites 180 1 COMPLETED Sample.library)
    as (db' & Hrun & Hs & _ & _ & Hget & _).
  - reflexivity.
  - unfold Table.unique. simpl.
    repeat constructor; simpl; intuition discriminate.
  - exists db'. split; [exact Hrun | split].
    + apply (Hget Sample.dune); [left |]; reflexivity.
    + unfold Manager.open_sessions. rewrite Hs. reflexivity.
Defined.

(** X19.  A note can be added for any book id the database can hold,
    stored or not (with a page number, if given, that it can hold): it
    gets a key above all stored keys, is listed among the notes of that
    id, and the notes listed for every other id, the books and the
    sessions are as before. *)
Theorem add_note_then_list
        (now book_id : Z) (note_type : NoteType) (content : string)
        (title : option string) (page_number : option Z) (db : Store) :
  Manager.sqlite_int book_id = true ->
  Manager.sqlite_int_opt page_number = true ->
  let note :=
    Note.Make (Table.next_id Note.id (notes db)) book_id note_type title
      content page_number now now in
  exists db',
    Manager.add_note now book_id note_type content title page_number db
    = (Ok note, db')
    /\ notes db' = notes db ++ [note]
    /\ In note (Manager.get_notes_for_book book_id db')
    /\ ~ In note (notes db)
    /\ (forall n, In n (Manager.get_notes_for_book book_id db) ->
                  In n (Manager.get_notes_for_book book_id db'))
    /\ (forall other, other <> book_id ->
          Manager.get_notes_for_book other db'
          = Manager.get_notes_for_book other db)
    /\ books db' = books db
    /\ reading_sessions db' = reading_sessions db.
Proof.
  intros _ _ note. unfold Manager.add_note. fold note.
  eexists. split; [reflexivity |].
  unfold Manager.get_notes_for_book. cbn [books reading_sessions notes].
  assert (Hnote : Note.book_id note = book_id) by reflexivity.
  split; [reflexivity |].
  split; [| split; [| split; [| split; [| split; reflexivity]]]].
  - apply (Permutation_in _ (order_by_desc_perm _ _)).
    apply filter_In. split.
    + apply in_or_app. right. left. reflexivity.
    + rewrite Hnote. apply Z.eqb_refl.
  - intros Hin. apply (next_id_fresh Note.id) in Hin.
    cbn [note Note.id] in Hin. lia.
  - intros n Hn.
    apply (Permutation_in _ (Permutation_sym (order_by_desc_perm _ _)))
      in Hn.
    apply (Permutation_in _ (order_by_desc_perm _ _)).
    rewrite filter_app. apply in_or_app. left. exact Hn.
  - intros other Hne. rewrite filter_app. cbn [filter].
    rewrite Hnote.
    destruct (Z.eqb_spec book_id other); [congruence |].
    rewrite app_nil_r. reflexivity.
Qed.

Lemma add_note_then_list_witness :
  exists db',
    Manager.add_note 300 99 QUOTE "Fear is the mind-killer" None (Some 12)
      Sample.library
    = (Ok (Note.Make 2 99 QUOTE None "Fear is the mind-killer" (Some 12)
             300 300), db')
    /\ notes db'
       = [Sample.dune_note;
          Note.Make 2 99 QUOTE None "Fear is the mind-killer" (Some 12)
            300 300]
    /\ In (Note.Make 2 99 QUOTE None "Fear is the mind-killer" (Some 12)
             300 300)
          (Manager.get_notes_for_book 99 db').
Proof.
  destruct (add_note_then_list 300 99 QUOTE "Fear is the mind-killer" None
              (Some 12) Sample.library)
    as (db' & Hrun & Hrows & Hin & _).
  - reflexivity.
  - reflexivity.
  - exists db'. split; [exact Hrun | split; [exact Hrows | exact Hin]].
Defined.

(** X20.  Deleting a stored note returns [True] and removes it: it can no
    longer be found by its key, the notes with other keys, the books and
    the sessions are as before.  Deleting a key (one the database can
    hold) that no note has returns [False] and changes nothing. *)
Theorem delete_note_removes (note_id : Z) (db : Store) :
  (forall note,
      In note (notes db) -> Note.id note = note_id ->
      exists db',
        Manager.delete_note note_id db = (Ok true, db')
        /\ Table.first (fun n => Note.id n =? note_id) (notes db') = None
        /\ (forall n, In n (notes db') <->
                      In n (notes db) /\ Note.id n <> note_id)
        /\ books db' = books db
        /\ reading_sessions db' = reading_sessions db)
  /\ (Manager.sqlite_int note_id = true ->
      (forall n, In n (notes db) -> Note.id n <> note_id) ->
      Manager.delete_note note_id db = (Ok false, db)).
Proof.
  split.
  - intros note Hin Hnid. unfold Manager.delete_note.
    destruct (Table.first (fun n => Note.id n =? note_id) (notes db))
      as [found |] eqn:Hf.
    + pose proof Hf as Hf'. apply find_some in Hf' as [_ Hid].
      apply Z.eqb_eq in Hid. rewrite Hid.
      eexists. split; [reflexivity |]. cbn [books reading_sessions notes].
      split; [apply (find_delete_same Note.id) |].
      split; [| split; reflexivity].
      intros n. unfold Table.delete. rewrite filter_In.
      split; intros [Hn Hne]; split; try exact Hn.
      * intros E. rewrite E, Z.eqb_refl in Hne. discriminate.
      * destruct (Z.eqb_spec (Note.id n) note_id); [contradiction |].
        reflexivity.
    + exfalso. apply (find_none _ _ Hf note) in Hin.
      rewrite Hnid, Z.eqb_refl in Hin. discriminate.
  - intros _ Habsent. unfold Manager.delete_note.
    destruct (Table.first (fun n => Note.id n =? note_id) (notes db))
      as [found |] eqn:Hf; [| reflexivity].
    apply find_some in Hf as [Hin Hid]. apply Z.eqb_eq in Hid.
    exfalso. apply (Habsent found Hin Hid).
Qed.

Lemma delete_note_removes_witness :
  (exists db',
      Manager.delete_note 1 Sample.library = (Ok true, db')
      /\ Table.first (fun n => Note.id n =? 1) (notes db') = None)
  /\ Manager.delete_note 7 Sample.library = (Ok false, Sample.library).
Proof.
  split.
  - destruct (proj1 (delete_note_removes 1 Sample.library) Sample.dune_note)
      as (db' & H1 & H2 & _).
    + left. reflexivity.
    + reflexivity.
    + exists db'. split; assumption.
  - apply (proj2 (delete_note_removes 7 Sample.library)).
    + reflexivity.
    + simpl. intros n [<- | []]. discriminate.
Defined.

(* ===================================================================== *)
(** * The dialogs *)
(* ===================================================================== *)

Lemma truthy_not_blank (s : string) :
  truthy (strip s) = true -> all_space s = false.
Proof.
  intros H. destruct (all_space s) eqn:E; [| reflexivity].
  rewrite (strip_all_space s E) in H. discriminate.
Qed.

Lemma or_None_not_empty (s : string) : or_None s <> Some "".
Proof. destruct s; simpl; discriminate. Qed.

Lemma submitted_book_data_is_clean_aux
      (int : string -> option Z) (f : AddBookScreen.Form)
      (d : AddBookScreen.BookData) :
  AddBookScreen._submit_form int f = AddBookScreen.Dismiss d ->
  truthy (AddBookScreen.title d) = true
  /\ truthy (AddBookScreen.author d) = true.
Proof.
  unfold AddBookScreen._submit_form.
  destruct (truthy (strip (AddBookScreen.title_input f))) eqn:Ht;
    cbn [negb]; [| discriminate].
  destruct (truthy (strip (AddBookScreen.author_input f))) eqn:Ha;
    cbn [negb]; [| discriminate].
  destruct (AddBookScreen.numeric_field int
              (strip (AddBookScreen.year_input f))); [| discriminate].
  destruct (AddBookScreen.numeric_field int
              (strip (AddBookScreen.pages_input f))); [| discriminate].
  intros H. inversion H; subst d; clear H. split; assumption.
Qed.

(** X21.  Whatever the add-book form dismisses with has a title and an author
    that are not empty and carry no white space at either end, and
    optional text fields that are absent rather than empty. *)
Theorem submitted_book_data_is_clean
        (int : string -> option Z) (f : AddBookScreen.Form)
        (d : AddBookScreen.BookData) :
  AddBookScreen._submit_form int f = AddBookScreen.Dismiss d ->
  AddBookScreen.title d = strip (AddBookScreen.title_input f)
  /\ AddBookScreen.author d = strip (AddBookScreen.author_input f)
  /\ truthy (AddBookScreen.title d) = true
  /\ truthy (AddBookScreen.author d) = true
  /\ strip (AddBookScreen.title d) = AddBookScreen.title d
  /\ strip (AddBookScreen.author d) = AddBookScreen.author d
  /\ AddBookScreen.book_type d = AddBookScreen.type_select f
  /\ AddBookScreen.isbn d <> Some ""
  /\ AddBookScreen.publisher d <> Some "".
Proof.
  unfold AddBookScreen._submit_form.
  destruct (truthy (strip (AddBookScreen.title_input f))) eqn:Ht;
    cbn [negb]; [| discriminate].
  destruct (truthy (strip (AddBookScreen.author_input f))) eqn:Ha;
    cbn [negb]; [| discriminate].
  destruct (AddBookScreen.numeric_field int
              (strip (AddBookScreen.year_input f))); [| discriminate].
  destruct (AddBookScreen.numeric_field int
              (strip (AddBookScreen.pages_input f))); [| discriminate].
  intros H. inversion H; subst d; clear H.
  cbn [AddBookScreen.title AddBookScreen.author AddBookScreen.book_type
       AddBookScreen.isbn AddBookScreen.publisher].
  repeat split; auto using strip_idempotent, or_None_not_empty.
Qed.

Lemma submitted_book_data_is_clean_witness :
  AddBookScreen.title
    (AddBookScreen.MkBookData "Emma" "Jane Austen" EBOOK None None
       (Some 1965) None None None) = strip " Emma "
  /\ truthy "Emma" = true.
Proof.
  destruct (submitted_book_data_is_clean Sample.int
              (AddBookScreen.MkForm " Emma " "Jane Austen" EBOOK "" ""
                 "1965" "" "" "")
              (AddBookScreen.MkBookData "Emma" "Jane Austen" EBOOK None None
                 (Some 1965) None None None) eq_refl)
    as (H1 & _ & H3 & _).
  split; [exact H1 | exact H3].
Defined.

(** X22.  A year or a page count that is given and is not a number keeps the
    add-book form open with the matching message; nothing is stored. *)
Theorem add_book_form_rejects_non_numbers
        (int : string -> option Z) (now : Z)
        (f : AddBookScreen.Form) (db : Store) :
  all_space (AddBookScreen.title_input f) = false ->
  all_space (AddBookScreen.author_input f) = false ->
  (all_space (AddBookScreen.year_input f) = false
   /\ int (strip (AddBookScreen.year_input f)) = None)
  \/ (all_space (AddBookScreen.pages_input f) = false
      /\ int (strip (AddBookScreen.pages_input f)) = None) ->
  (exists message focus,
      AddBookScreen._submit_form int f
      = AddBookScreen.ShowError message focus
      /\ (message = "Publication year must be a number"
          \/ message = "Pages must be a number"))
  /\ AddBookScreen.submit int now f db = db.
Proof.
  intros Ht Ha H.
  destruct (not_blank_truthy _ Ht) as [_ Ht'].
  destruct (not_blank_truthy _ Ha) as [_ Ha'].
  assert (Hform : exists message focus,
             AddBookScreen._submit_form int f
             = AddBookScreen.ShowError message focus
             /\ (message = "Publication year must be a number"
                 \/ message = "Pages must be a number")).
  { unfold AddBookScreen._submit_form. rewrite Ht', Ha'. cbn [negb].
    unfold AddBookScreen.numeric_field.
    destruct H as [[Hy Hi] | [Hp Hi]].
    - destruct (not_blank_truthy _ Hy) as [_ Hy']. rewrite Hy', Hi.
      eexists. eexists. split; [reflexivity | left; reflexivity].
    - destruct (not_blank_truthy _ Hp) as [_ Hp'].
      rewrite Hp', Hi.
      destruct (if truthy (strip (AddBookScreen.year_input f))
                then match int (strip (AddBookScreen.year_input f)) with
                     | Some n => Some (Some n)
                     | None => None
                     end
                else Some None).
      + eexists. eexists. split; [reflexivity | right; reflexivity].
      + eexists. eexists. split; [reflexivity | left; reflexivity]. }
  split; [exact Hform |].
  destruct Hform as (message & focus & Hf & _).
  unfold AddBookScreen.submit. rewrite Hf. reflexivity.
Qed.

Lemma add_book_form_rejects_non_numbers_witness :
  (exists message focus,
      AddBookScreen._submit_form Sample.int
        (AddBookScreen.MkForm "Emma" "Jane Austen" EBOOK "" "" "MDCCCXV" ""
           "" "")
      = AddBookScreen.ShowError message focus
      /\ (message = "Publication year must be a number"
          \/ message = "Pages must be a number"))
  /\ AddBookScreen.submit Sample.int 300
       (AddBookScreen.MkForm "Emma" "Jane Austen" EBOOK "" "" "MDCCCXV" ""
          "" "")
       Sample.library = Sample.library.
Proof.
  apply (add_book_form_rejects_non_numbers Sample.int 300
           (AddBookScreen.MkForm "Emma" "Jane Austen" EBOOK "" ""
              "MDCCCXV" "" "" "")
           Sample.library); try reflexivity.
  left. split; reflexivity.
Defined.

(** X23.  Submitting the add-book form either leaves the store as it was (the
    form stays open, or the ISBN is taken and the error is swallowed) or
    appends exactly one book, whose title and author are not empty; the
    sessions and the notes are never touched. *)
Theorem add_book_dialog_adds_at_most_one_book
        (int : string -> option Z) (now : Z)
        (f : AddBookScreen.Form) (db : Store) :
  AddBookScreen.submit int now f db = db
  \/ exists book,
       AddBookScreen.submit int now f db
       = MkStore (books db ++ [book]) (reading_sessions db) (notes db)
       /\ truthy (Book.title book) = true
       /\ truthy (Book.author book) = true
       /\ Book.status book = TO_READ.
Proof.
  unfold AddBookScreen.submit.
  destruct (AddBookScreen._submit_form int f) as [m fo | d] eqn:E;
    [left; reflexivity |].
  destruct (submitted_book_data_is_clean_aux int f d E) as (Ht & Ha).
  unfold AddBookScreen.handle_add_book_result, Manager.add_book.
  destruct (Manager.isbn_taken (AddBookScreen.isbn d) (books db));
    cbn [snd]; [left; reflexivity |].
  right. eexists. split; [reflexivity |].
  cbn [Book.title Book.author Book.status]. auto.
Qed.

(** X24.  The session dialog hands over only date text that parses:
    when it is dismissed with data, the date text is the stripped input
    and, provided the parser still reads that text as it did in the
    dialog and the book id is one the database can hold,
    [start_reading_session] on that data raises nothing and starts a
    session on the parsed date; the store the detail screen's callback
    leaves is that result. *)
Theorem session_dialog_data_starts_session
        (parse_date parse_later : string -> result datetime)
        (today : date) (now book_id : Z)
        (act : ReadingSessionScreen.action)
        (f : ReadingSessionScreen.Form)
        (d : ReadingSessionScreen.SessionData) (db : Store) :
  Manager.sqlite_int book_id = true ->
  ReadingSessionScreen.on_button_pressed parse_date act f = Ok (Some d) ->
  parse_later (ReadingSessionScreen.date_str d)
  = parse_date (ReadingSessionScreen.date_str d) ->
  ReadingSessionScreen.date_str d
  = strip (ReadingSessionScreen.date_input f)
  /\ ReadingSessionScreen.notes d <> Some ""
  /\ exists start_date new_session,
       DateUtils.parse_date_input parse_date
         (ReadingSessionScreen.date_str d) = Ok (Some start_date)
       /\ Manager.start_reading_session parse_later today now book_id
            (Some (ReadingSessionScreen.date_str d)) db
          = (Ok new_session,
             BookDetailScreen.handle_start_result parse_later today now
               book_id (Some d) db)
       /\ ReadingSession.start_date new_session = start_date
       /\ ReadingSession.book_id new_session = book_id
       /\ ReadingSession.end_date new_session = None.
Proof.
  intros _.
  unfold ReadingSessionScreen.on_button_pressed,
    DateUtils.validate_date_input.
  destruct (truthy (strip (ReadingSessionScreen.date_input f))) eqn:Ht;
    cbn [negb]; [| discriminate].
  destruct (DateUtils.parse_date_input parse_date
              (strip (ReadingSessionScreen.date_input f)))
    as [[start_date |] | e] eqn:Hp; try discriminate.
  intros H. inversion H; subst d; clear H.
  cbn [ReadingSessionScreen.date_str ReadingSessionScreen.notes].
  intros Hsame.
  split; [reflexivity | split; [apply or_None_not_empty |]].
  exists start_date. eexists. split; [exact Hp |].
  assert (Hlater : DateUtils.parse_date_input parse_later
                     (strip (ReadingSessionScreen.date_input f))
                   = Ok (Some start_date)).
  { rewrite <- Hp.
    pose proof (truthy_not_blank _ Ht) as Hnb.
    assert (Hnb' : all_space (strip (ReadingSessionScreen.date_input f))
                   = false) by (rewrite all_space_strip; exact Hnb).
    rewrite (parse_date_input_calls_parser parse_later _ Hnb').
    rewrite (parse_date_input_calls_parser parse_date _ Hnb').
    rewrite strip_idempotent, Hsame. reflexivity. }
  unfold BookDetailScreen.handle_start_result,
    Manager.start_reading_session.
  cbn [ReadingSessionScreen.date_str].
  rewrite (date_or_today_parsed parse_later today start_date _ Hlater).
  cbn [snd]. repeat split.
Qed.

Lemma session_dialog_data_starts_session_witness :
  exists start_date new_session,
    DateUtils.parse_date_input Sample.parse_date "2024-01-10"
    = Ok (Some start_date)
    /\ Manager.start_reading_session Sample.parse_date Sample.today 200 2
         (Some "2024-01-10") Sample.library
       = (Ok new_session,
          BookDetailScreen.handle_start_result Sample.parse_date
            Sample.today 200 2
            (Some (ReadingSessionScreen.MkSessionData "2024-01-10" None
                     ReadingSessionScreen.ActionStart None))
            Sample.library)
    /\ ReadingSession.start_date new_session = start_date
    /\ ReadingSession.book_id new_session = 2
    /\ ReadingSession.end_date new_session = None.
Proof.
  destruct (session_dialog_data_starts_session Sample.parse_date
              Sample.parse_date Sample.today 200 2
              ReadingSessionScreen.ActionStart
              (ReadingSessionScreen.MkForm " 2024-01-10 " "" false)
              (ReadingSessionScreen.MkSessionData "2024-01-10" None
                 ReadingSessionScreen.ActionStart None)
              Sample.library eq_refl eq_refl eq_refl) as (_ & _ & H).
  exact H.
Defined.

(** X25.  The session dialog stays open, and nothing is handed over, when the
    date field is blank or holds text the parser rejects. *)
Theorem session_dialog_rejects_bad_date
        (parse_date : string -> result datetime)
        (act : ReadingSessionScreen.action)
        (f : ReadingSessionScreen.Form) :
  all_space (ReadingSessionScreen.date_input f) = true
  \/ parse_date (strip (ReadingSessionScreen.date_input f))
     = Raise ParserError ->
  ReadingSessionScreen.on_button_pressed parse_date act f = Ok None.
Proof.
  intros H. unfold ReadingSessionScreen.on_button_pressed.
  destruct (truthy (strip (ReadingSessionScreen.date_input f))) eqn:Ht;
    cbn [negb]; [| reflexivity].
  unfold DateUtils.validate_date_input.
  destruct H as [H | H].
  - rewrite (strip_all_space _ H) in Ht. discriminate.
  - rewrite (parse_date_input_unparseable parse_date _ ParserError).
    + reflexivity.
    + rewrite strip_idempotent. exact H.
    + reflexivity.
Qed.

Lemma session_dialog_rejects_bad_date_witness :
  ReadingSessionScreen.on_button_pressed Sample.parse_date
    ReadingSessionScreen.ActionEnd
    (ReadingSessionScreen.MkForm "someday" "" true) = Ok None.
Proof.
  apply (session_dialog_rejects_bad_date Sample.parse_date
           ReadingSessionScreen.ActionEnd
           (ReadingSessionScreen.MkForm "someday" "" true)).
  right. reflexivity.
Defined.
